(** * plugin-manager: the reaper watcher and the event bootstrap

    A shallow embedding of [reaper/watcher.go] and [events/entry.go].

    Both files are glue around external collaborators (the metadata client,
    the container runtime client, the logger, the event router).  The
    collaborators are kept abstract: an interface of the Go code is a type
    class over an arbitrary world type [W], every call threads the world and
    may answer with an error.  What a function of the program does is then
    the list of calls it issues, each recorded together with its answer. *)

From stdpp Require Import gmap strings list.
From Stdlib Require Import QArith Qround Qpower.

#[local] Open Scope string_scope.
#[local] Open Scope list_scope.
#[local] Open Scope Z_scope.

(** ** Go values *)

(** A Go [error] value is represented by its message. *)
Definition error : Type := string.

(** The pair [(x, err)] returned by a fallible Go call. *)
Inductive result (A : Type) : Type :=
| Ok (a : A)
| Err (err : error).
Arguments Ok {A} a.
Arguments Err {A} err.

(** [m[k]] on a Go [map[string]string]: the zero value when [k] is absent. *)
Definition index (m : gmap string string) (k : string) : string :=
  default "" (m !! k).

(** [time.Duration]: a number of nanoseconds. *)
Definition Duration : Type := Z.

Module time.
Definition Nanosecond : Duration := 1.
Definition Second : Duration := 1000000000 * Nanosecond.
Definition Minute : Duration := 60 * Second.
End time.

(** ** Effects: a world-passing monad that records what was called *)

Section Effects.
Context {W Ev : Type}.

(** A computation reads the world, answers, leaves a new world and the
    list of calls it made, oldest first. *)
Definition M (A : Type) : Type := W → A * W * list Ev.

Definition ret {A} (a : A) : M A := λ w, (a, w, []).

Definition bind {A B} (m : M A) (f : A → M B) : M B :=
  λ w, let '(a, w1, t1) := m w in
       let '(b, w2, t2) := f a w1 in
       (b, w2, t1 ++ t2).

(** [for _, x := range xs { body x }] *)
Fixpoint forRange {A} (xs : list A) (body : A → M unit) : M unit :=
  match xs with
  | [] => ret tt
  | x :: xs' => bind (body x) (λ _, forRange xs' body)
  end.

(** Calling a collaborator records the call together with its answer. *)
Definition call {A} (f : W → A * W) (ev : A → Ev) : M A :=
  λ w, let '(a, w') := f w in (a, w', [ev a]).

(** An effect that has no answer and leaves the collaborators alone. *)
Definition emit (ev : Ev) : M unit := λ w, (tt, w, [ev]).

Definition value {A} (r : A * W * list Ev) : A := r.1.1.
Definition world {A} (r : A * W * list Ev) : W := r.1.2.
Definition calls {A} (r : A * W * list Ev) : list Ev := r.2.
End Effects.
Arguments M : clear implicits.
Arguments value {W Ev A} !r /.
Arguments world {W Ev A} !r /.
Arguments calls {W Ev A} !r /.

Notation "x <- m ;; k" := (bind m (λ x, k))
  (at level 100, m at next level, right associativity) : stdpp_scope.
Notation "m ;;; k" := (bind m (λ _, k))
  (at level 100, right associativity) : stdpp_scope.

(** ** The types of the imported packages that the program touches *)

Module metadata.
Record Host := { Host_UUID : string }.

Record Container := {
  UUID : string;
  ExternalId : string;
  HostUUID : string;
  Name : string;
  Labels : gmap string string;
}.
End metadata.

Module types.
Record Container := {
  ID : string;
  State : string;
  Labels : gmap string string;
}.

Record ContainerJSON := { Name : string }.
Record ContainerListOptions := { All : bool }.
Record ContainerRemoveOptions := { Force : bool }.
End types.

(** [metadata.Client], as far as the watcher uses it. *)
Class MetadataClient (W : Type) := {
  GetSelfHost : W → result metadata.Host * W;
  GetContainers : W → result (list metadata.Container) * W;
}.

(** The engine-api [client.Client], as far as the watcher uses it.  The
    timeout of [ContainerStop] is a pointer in Go: [None] is [nil]. *)
Class DockerClient (W : Type) := {
  ContainerInspect : string → W → result types.ContainerJSON * W;
  ContainerRemove : string → types.ContainerRemoveOptions → W → option error * W;
  ContainerList : types.ContainerListOptions → W → result (list types.Container) * W;
  ContainerStop : string → option Duration → W → option error * W;
}.

(** ** The poll-interval generator *)

Module backoff.

(** [Min], [Max] and [Factor] are the fields the watcher sets; [attempt]
    is the private counter of the generator, zero in a fresh value. *)
Record Backoff := {
  Min : Duration;
  Max : Duration;
  Factor : Q;
  attempt : nat;
}.

(** The interval before truncation and clamping: [Min] multiplied by
    [Factor] once per earlier call. *)
Definition raw (b : Backoff) (attempt : nat) : Q :=
  inject_Z (Min b) * Factor b ^ Z.of_nat attempt.

(** Modelled from the spec: the backoff package that provides [Backoff]
    and its [Duration] method is imported, its code is not part of the
    sources.  The interval starts at [Min], is multiplied by [Factor]
    after every call and is capped at the ceiling [Max].  A
    [time.Duration] counts whole nanoseconds, so the product is cut to
    its integral part. *)
Definition ForAttempt (b : Backoff) (attempt : nat) : Duration :=
  let dur := Qfloor (raw b attempt) in
  if bool_decide (Max b < dur) then Max b else dur.

(** [b.Duration()]: the interval for the current attempt; the counter
    moves on. *)
Definition Duration (b : Backoff) : Duration * Backoff :=
  (ForAttempt b (attempt b),
   {| Min := Min b; Max := Max b; Factor := Factor b;
      attempt := S (attempt b) |}).

End backoff.

(** * Package reaper *)

Module reaper.

Definition uuidLabel := "io.rancher.container.uuid".
Definition serviceNameLabel := "io.rancher.stack_service.name".
Definition metadataService := "network-services/metadata".
Definition dnsService := "network-services/metadata/dns".
Definition recheckEvery : Duration := 5 * time.Minute.

Inductive level := Info | Error.

(** What a run of the watcher does to the outside, call by call. *)
Inductive event :=
| EvGetSelfHost (r : result metadata.Host)
| EvGetContainers (r : result (list metadata.Container))
| EvContainerInspect (id : string) (r : result types.ContainerJSON)
| EvContainerRemove (id : string) (opts : types.ContainerRemoveOptions)
    (r : option error)
| EvContainerList (opts : types.ContainerListOptions)
    (r : result (list types.Container))
| EvContainerStop (id : string) (timeout : option Duration) (r : option error)
| EvLog (lvl : level) (format : string) (args : list string)
| EvSleep (d : Duration).

Section Watcher.
Context {W : Type} `{!MetadataClient W} `{!DockerClient W}.

#[local] Abbreviation M := (M W event).

(** [log.Infof] and [log.Errorf]; [time.Sleep]. *)
Definition logf (lvl : level) (format : string) (args : list string) : M unit :=
  emit (EvLog lvl format args).

Definition sleep (d : Duration) : M unit := emit (EvSleep d).

Definition removeContainer (container : metadata.Container) : M unit :=
  r <- call (ContainerInspect (metadata.ExternalId container))
         (EvContainerInspect (metadata.ExternalId container));;
  match r with
  | Err err => logf Error "reaper: Inspect failed: %v" [err]
  | Ok c =>
    if bool_decide (types.Name c = "/rancher-agent") then ret tt
    else
      logf Info "reaper:  Removing unmanaged container %s %s"
        [metadata.Name container; metadata.ExternalId container];;;
      err <- call (ContainerRemove (metadata.ExternalId container)
                     {| types.Force := true |})
               (EvContainerRemove (metadata.ExternalId container)
                  {| types.Force := true |});;
      match err with
      | Some err => logf Error "reaper: Removed failed: %v" [err]
      | None => ret tt
      end
  end.

(** The body of the loop of [onChange]. *)
Definition onChange_body (host : metadata.Host)
    (container : metadata.Container) : M unit :=
  if bool_decide (metadata.HostUUID container ≠ metadata.Host_UUID host)
  then ret tt
  else
    match metadata.Labels container !! uuidLabel with
    | None => ret tt
    | Some uuid =>
      if bool_decide (metadata.UUID container ≠ uuid)
      then removeContainer container
      else ret tt
    end.

Definition onChange (version : string) : M (option error) :=
  r <- call GetSelfHost EvGetSelfHost;;
  match r with
  | Err err => ret (Some err)
  | Ok host =>
    r <- call GetContainers EvGetContainers;;
    match r with
    | Err err => ret (Some err)
    | Ok containers =>
      forRange containers (onChange_body host);;;
      ret None
    end
  end.

Definition onChangeNoError (version : string) : M unit :=
  err <- onChange version;;
  match err with
  | Some err =>
    logf Error "reaper: Failed to watch for orphan containers: %v" [err]
  | None => ret tt
  end.

(** The first loop of [CheckMetadata]: one step per listed container,
    on the two slices [metadataIds] and [dnsIds]. *)
Definition CheckMetadata_scan (ids : list string * list string)
    (container : types.Container) : list string * list string :=
  let '(metadataIds, dnsIds) := ids in
  if bool_decide (types.State container ≠ "running") then (metadataIds, dnsIds)
  else
    let metadataIds :=
      if bool_decide (index (types.Labels container) uuidLabel ≠ "")
         && bool_decide (index (types.Labels container) serviceNameLabel
                         = metadataService)
      then metadataIds ++ [types.ID container] else metadataIds in
    let dnsIds :=
      if bool_decide (index (types.Labels container) uuidLabel ≠ "")
         && bool_decide (index (types.Labels container) serviceNameLabel
                         = dnsService)
      then dnsIds ++ [types.ID container] else dnsIds in
    (metadataIds, dnsIds).

(** [if len(ids) > 1 { toStop = append(toStop, ids[len(ids)-1]) }].
    The index is in range under the guard, so the slice expression never
    panics and the [None] branch is never taken. *)
Definition appendLast (toStop ids : list string) : list string :=
  if bool_decide (1 < length ids)%nat then
    match ids !! (length ids - 1)%nat with
    | Some id => toStop ++ [id]
    | None => toStop
    end
  else toStop.

Definition CheckMetadata_toStop (containers : list types.Container)
    : list string :=
  let '(metadataIds, dnsIds) := foldl CheckMetadata_scan ([], []) containers in
  let toStop := [] in
  let toStop := appendLast toStop metadataIds in
  let toStop := appendLast toStop dnsIds in
  toStop.

(** The body of the last loop of [CheckMetadata]. *)
Definition CheckMetadata_stop (id : string) : M unit :=
  logf Info "reaper:  Stopping duplicate metadata/dns service: %s" [id];;;
  let t : Duration := 0 in
  err <- call (ContainerStop id (Some t)) (EvContainerStop id (Some t));;
  match err with
  | Some _ =>
    logf Error "reaper:  Failed to stop duplicate metadata/dns service: %s" [id]
  | None => ret tt
  end.

Definition CheckMetadata : M (option error) :=
  r <- call (ContainerList {| types.All := true |})
         (EvContainerList {| types.All := true |});;
  match r with
  | Err err => ret (Some err)
  | Ok containers =>
    forRange (CheckMetadata_toStop containers) CheckMetadata_stop;;;
    ret None
  end.

(** [watchMetadata] never returns.  [watchMetadata_loop n b] is the first
    [n] rounds of its [for] loop, started with the generator in state
    [b]. *)
Fixpoint watchMetadata_loop (n : nat) (b : backoff.Backoff) : M unit :=
  match n with
  | O => ret tt
  | S n' =>
    err <- CheckMetadata;;
    match err with
    | Some err =>
      logf Error "reaper: Failed to check for bad metadata: %v" [err]
    | None => ret tt
    end;;;
    let '(d, b') := backoff.Duration b in
    sleep d;;;
    watchMetadata_loop n' b'
  end.

Definition watchMetadata_backoff : backoff.Backoff :=
  {| backoff.Min := 1 * time.Second;
     backoff.Max := 5 * time.Minute;
     backoff.Factor := 1.5;
     backoff.attempt := 0 |}.

Definition watchMetadata (rounds : nat) : M unit :=
  watchMetadata_loop rounds watchMetadata_backoff.

(** [Watch] only starts the two loops as goroutines: [onChangeNoError] on
    every change of the metadata and [watchMetadata] once.  It has no
    logic of its own; the passes above are what the goroutines run. *)

End Watcher.
End reaper.

(** * Package events *)

Module docker.
Record APIContainers := { ID : string }.
Record APIEvents := { Event_ID : string; Status : string; From : string }.
Record ListContainersOptions := { All : bool }.
End docker.

Module events.

Definition simulatedEvent := "-simulated-".

Section Processor.
(** [network.Manager], [binexec.Watcher], the runtime client and the
    router are handles of other packages: opaque here. *)
Context {Manager Watcher Client EventRouter : Type}.

(** The implementations of the [Handler] interface that [Process]
    puts into the table. *)
Inductive Handler :=
| BinexecWatcher (bw : Watcher)
| StartHandler (dockerClient : Client)
| NetworkManagerHandler (nm : Manager).

(** What [Process] calls.  [NewDockerClient] and [NewEventRouter] are
    functions of this package defined in other files; [Listen] is the
    send [router.listener <- event]. *)
Class Runtime (W : Type) := {
  NewDockerClient : W → result Client * W;
  NewEventRouter : Z → Z → Client → gmap string (list Handler) → W
                   → result EventRouter * W;
  Start : EventRouter → W → unit * W;
  ListContainers : Client → docker.ListContainersOptions → W
                   → result (list docker.APIContainers) * W;
  Listen : EventRouter → docker.APIEvents → W → unit * W;
}.

Inductive event :=
| EvNewDockerClient (r : result Client)
| EvNewEventRouter (workerPoolSize maxWorkers : Z) (dockerClient : Client)
    (handlers : gmap string (list Handler)) (r : result EventRouter)
| EvStart (router : EventRouter)
| EvListContainers (dockerClient : Client)
    (opts : docker.ListContainersOptions)
    (r : result (list docker.APIContainers))
| EvListen (router : EventRouter) (event : docker.APIEvents).

Record DockerEventsProcessor := {
  poolSize : Z;
  nm : Manager;
  bw : Watcher;
}.

Context {W : Type} `{!Runtime W}.

#[local] Abbreviation M := (M W event).

(** The map literal of [Process]. *)
Definition Process_handlers (de : DockerEventsProcessor)
    (dockerClient : Client) : gmap string (list Handler) :=
  let nmHandler := NetworkManagerHandler (nm de) in
  {[ "start" := [BinexecWatcher (bw de); StartHandler dockerClient; nmHandler];
     "die" := [nmHandler] ]}.

(** The body of the replay loop of [Process]. *)
Definition Process_replay (router : EventRouter) (c : docker.APIContainers)
    : M unit :=
  let event := {| docker.Event_ID := docker.ID c;
                  docker.Status := "start";
                  docker.From := simulatedEvent |} in
  call (Listen router event) (λ _, EvListen router event).

Definition Process (de : DockerEventsProcessor) : M (option error) :=
  r <- call NewDockerClient EvNewDockerClient;;
  match r with
  | Err err => ret (Some err)
  | Ok dockerClient =>
    let handlers := Process_handlers de dockerClient in
    r <- call (NewEventRouter (poolSize de) (poolSize de) dockerClient handlers)
           (EvNewEventRouter (poolSize de) (poolSize de) dockerClient handlers);;
    match r with
    | Err err => ret (Some err)
    | Ok router =>
      call (Start router) (λ _, EvStart router);;;
      r <- call (ListContainers dockerClient {| docker.All := true |})
             (EvListContainers dockerClient {| docker.All := true |});;
      match r with
      | Err err => ret (Some err)
      | Ok containers =>
        forRange containers (Process_replay router);;;
        ret None
      end
    end
  end.

Definition Watch (poolSize : Z) (nm : Manager) (bw : Watcher)
    : M (option error) :=
  let dep := {| poolSize := poolSize; nm := nm; bw := bw |} in
  Process dep.

End Processor.
End events.

(** * What the claims observe in a list of calls *)

Module observe.

(** The container an event inspects or removes, if it does either. *)
Definition touched (ev : reaper.event) : option string :=
  match ev with
  | reaper.EvContainerInspect id _ => Some id
  | reaper.EvContainerRemove id _ _ => Some id
  | _ => None
  end.

Definition removed (ev : reaper.event) : option string :=
  match ev with
  | reaper.EvContainerRemove id _ _ => Some id
  | _ => None
  end.

(** The stop calls of a run, in order: target and grace period. *)
Definition stopped (ev : reaper.event) : option (string * option Duration) :=
  match ev with
  | reaper.EvContainerStop id timeout _ => Some (id, timeout)
  | _ => None
  end.

Definition stop_calls (t : list reaper.event) : list (string * option Duration) :=
  omap stopped t.

Definition stop_targets (t : list reaper.event) : list string :=
  (stop_calls t).*1.

(** The intervals slept, in order. *)
Definition slept (ev : reaper.event) : option Duration :=
  match ev with
  | reaper.EvSleep d => Some d
  | _ => None
  end.

Definition sleeps (t : list reaper.event) : list Duration := omap slept t.

(** The running instances of a well-known service in a listing, in the
    order of the listing: state "running", a non-empty uuid label, and
    the service-name label equal to [svc]. *)
Definition instances (svc : string) (containers : list types.Container)
    : list types.Container :=
  filter (λ c, types.State c = "running"
               ∧ index (types.Labels c) reaper.uuidLabel ≠ ""
               ∧ index (types.Labels c) reaper.serviceNameLabel = svc)
    containers.

(** The rule of the spec for one service, given its running instances
    [S] and the targets [ids] of the stop calls made for it: none when
    [S] has at most one element, else exactly one, the last of [S]. *)
Definition stops_last_of (S : list types.Container) (ids : list string)
    : Prop :=
  ((length S ≤ 1)%nat → ids = [])
  ∧ ((1 < length S)%nat → ∃ c, last S = Some c ∧ ids = [types.ID c]).

(** The events fed to the listener of the router, in order. *)
Definition listened {Manager Watcher Client EventRouter : Type}
    (t : list (@events.event Manager Watcher Client EventRouter))
    : list docker.APIEvents :=
  omap (λ ev, match ev with
              | events.EvListen _ event => Some event
              | _ => None
              end) t.

(** The event replayed for a container that exists at startup. *)
Definition synthetic (c : docker.APIContainers) : docker.APIEvents :=
  {| docker.Event_ID := docker.ID c;
     docker.Status := "start";
     docker.From := events.simulatedEvent |}.

End observe.

(** * A small simulated host, to run the program on *)

Module sim.

(** The metadata service answers with [host] and [desired].  The runtime
    knows the name of each container by id ([names]) and answers a
    listing with [listing]; removing or stopping a container of [stuck]
    fails, removing any other one forgets its name. *)
Record world := {
  host : result metadata.Host;
  desired : result (list metadata.Container);
  names : gmap string string;
  listing : result (list types.Container);
  stuck : gset string;
}.

#[global] Instance sim_metadata : MetadataClient world := {|
  GetSelfHost w := (host w, w);
  GetContainers w := (desired w, w);
|}.

#[global] Instance sim_docker : DockerClient world := {|
  ContainerInspect id w :=
    match names w !! id with
    | Some name => (Ok {| types.Name := name |}, w)
    | None => (Err "No such container", w)
    end;
  ContainerRemove id opts w :=
    if bool_decide (id ∈ stuck w) then (Some "device or resource busy", w)
    else (None, {| host := host w; desired := desired w;
                   names := delete id (names w);
                   listing := listing w; stuck := stuck w |});
  ContainerList opts w := (listing w, w);
  ContainerStop id timeout w :=
    if bool_decide (id ∈ stuck w) then (Some "cannot stop container", w)
    else (None, w);
|}.

Definition labelled (uuid : string) : gmap string string :=
  {[ reaper.uuidLabel := uuid ]}.

Definition service (uuid svc : string) : gmap string string :=
  {[ reaper.uuidLabel := uuid; reaper.serviceNameLabel := svc ]}.

Definition H : metadata.Host := {| metadata.Host_UUID := "H" |}.

(** Scenario A of the spec: the record "a1" points at the runtime
    container "d1", which carries the label "a2". *)
Definition web1 : metadata.Container :=
  {| metadata.UUID := "a1"; metadata.ExternalId := "d1";
     metadata.HostUUID := "H"; metadata.Name := "web-1";
     metadata.Labels := labelled "a2" |}.

(** The same record without any uuid label. *)
Definition bare : metadata.Container :=
  {| metadata.UUID := "a1"; metadata.ExternalId := "d1";
     metadata.HostUUID := "H"; metadata.Name := "web-1";
     metadata.Labels := ∅ |}.

Definition db1 : metadata.Container :=
  {| metadata.UUID := "b1"; metadata.ExternalId := "d2";
     metadata.HostUUID := "H"; metadata.Name := "db-1";
     metadata.Labels := labelled "b0" |}.

Definition agent : metadata.Container :=
  {| metadata.UUID := "g1"; metadata.ExternalId := "d0";
     metadata.HostUUID := "H"; metadata.Name := "agent";
     metadata.Labels := labelled "g0" |}.

Definition m (id : string) : types.Container :=
  {| types.ID := id; types.State := "running";
     types.Labels := service id reaper.metadataService |}.

Definition hostA (cs : list metadata.Container) : world :=
  {| host := Ok H; desired := Ok cs;
     names := {[ "d0" := "/rancher-agent"; "d1" := "/web-1" ]};
     listing := Ok [m "m3"; m "m2"; m "m1"];
     stuck := {[ "d1" ]} |}.

Definition unreachable : world :=
  {| host := Err "connection refused"; desired := Ok [];
     names := ∅; listing := Err "connection refused"; stuck := ∅ |}.

Definition no_containers : world :=
  {| host := Ok H; desired := Err "timeout";
     names := ∅; listing := Ok []; stuck := ∅ |}.

(** The event bootstrap: the handles are numbers, the world is the
    answer to the listing and the content of the listener channel. *)
Record boot := {
  present : result (list docker.APIContainers);
  channel : list docker.APIEvents;
}.

#[global] Instance sim_runtime : @events.Runtime nat nat nat nat boot := {|
  events.NewDockerClient w := (Ok 7%nat, w);
  events.NewEventRouter workers max dockerClient handlers w := (Ok 9%nat, w);
  events.Start router w := (tt, w);
  events.ListContainers dockerClient opts w := (present w, w);
  events.Listen router event w :=
    (tt, {| present := present w; channel := channel w ++ [event] |});
|}.

(** Scenario D of the spec. *)
Definition startup : boot :=
  {| present := Ok [ {| docker.ID := "c1" |}; {| docker.ID := "c2" |} ];
     channel := [] |}.

Definition processor : @events.DockerEventsProcessor nat nat :=
  {| events.poolSize := 10; events.nm := 1%nat; events.bw := 2%nat |}.

End sim.

(** * More to observe in a list of calls *)

Module pass.

(** The test of the loop of [onChange], as one boolean: the container is
    of the host, carries the uuid label, and the label is not its UUID. *)
Definition orphan (host : metadata.Host) (c : metadata.Container) : bool :=
  bool_decide (metadata.HostUUID c = metadata.Host_UUID host)
  && match metadata.Labels c !! reaper.uuidLabel with
     | Some uuid => bool_decide (metadata.UUID c ≠ uuid)
     | None => false
     end.

Definition inspected (ev : reaper.event) : option string :=
  match ev with
  | reaper.EvContainerInspect id _ => Some id
  | _ => None
  end.

(** Every removal in the list has Force set and comes two calls after a
    successful inspect of the same id whose answer is not the agent. *)
Definition guarded (t : list reaper.event) : Prop :=
  ∀ (k : nat) id opts r,
    t !! k = Some (reaper.EvContainerRemove id opts r) →
    opts = {| types.Force := true |}
    ∧ (2 ≤ k)%nat
    ∧ ∃ c, t !! (k - 2)%nat = Some (reaper.EvContainerInspect id (Ok c))
           ∧ types.Name c ≠ "/rancher-agent".

(** The instance tests of [CheckMetadata], for either service. *)
Definition instance (c : types.Container) : Prop :=
  types.State c = "running"
  ∧ index (types.Labels c) reaper.uuidLabel ≠ ""
  ∧ (index (types.Labels c) reaper.serviceNameLabel = reaper.metadataService
     ∨ index (types.Labels c) reaper.serviceNameLabel = reaper.dnsService).

(** The stop calls that failed, and the stop failures that were logged. *)
Definition stop_failed (ev : reaper.event) : option string :=
  match ev with
  | reaper.EvContainerStop id _ (Some _) => Some id
  | _ => None
  end.

Definition stop_failure_logged (ev : reaper.event) : option (list string) :=
  match ev with
  | reaper.EvLog reaper.Error
      "reaper:  Failed to stop duplicate metadata/dns service: %s" args =>
    Some args
  | _ => None
  end.

(** The rhythm of [watchMetadata]: listings and sleeps. *)
Inductive beat := Poll | Nap.

Definition beat_of (ev : reaper.event) : option beat :=
  match ev with
  | reaper.EvContainerList _ _ => Some Poll
  | reaper.EvSleep _ => Some Nap
  | _ => None
  end.

(** The listings that failed, and the failed passes that were logged. *)
Definition list_failed (ev : reaper.event) : option error :=
  match ev with
  | reaper.EvContainerList _ (Err err) => Some err
  | _ => None
  end.

Definition check_failure_logged (ev : reaper.event) : option (list string) :=
  match ev with
  | reaper.EvLog reaper.Error
      "reaper: Failed to check for bad metadata: %v" args => Some args
  | _ => None
  end.

(** The routers started by a run of the bootstrap. *)
Definition started {Manager Watcher Client EventRouter : Type}
    (t : list (@events.event Manager Watcher Client EventRouter))
    : list EventRouter :=
  omap (λ ev, match ev with
              | events.EvStart router => Some router
              | _ => None
              end) t.

(** More of the simulated host: a record that matches its container, a
    record of another host, a host whose duplicate cannot be stopped, and
    a runtime that does not answer the listing at startup. *)
Definition settled : metadata.Container :=
  {| metadata.UUID := "s1"; metadata.ExternalId := "d3";
     metadata.HostUUID := "H"; metadata.Name := "cache-1";
     metadata.Labels := sim.labelled "s1" |}.

Definition elsewhere : metadata.Container :=
  {| metadata.UUID := "e1"; metadata.ExternalId := "d4";
     metadata.HostUUID := "G"; metadata.Name := "web-2";
     metadata.Labels := sim.labelled "e0" |}.

Definition jammed : sim.world :=
  {| sim.host := Ok sim.H; sim.desired := Ok [];
     sim.names := ∅;
     sim.listing := Ok [sim.m "m2"; sim.m "m1"];
     sim.stuck := {[ "m1" ]} |}.

(** One running metadata service and an exited one beside it. *)
Definition healthy : sim.world :=
  {| sim.host := Ok sim.H; sim.desired := Ok [];
     sim.names := ∅;
     sim.listing :=
       Ok [sim.m "m2";
           {| types.ID := "m1"; types.State := "exited";
              types.Labels := sim.service "m1" reaper.metadataService |}];
     sim.stuck := ∅ |}.

Definition no_listing : sim.boot :=
  {| sim.present := Err "daemon down"; sim.channel := [] |}.

End pass.

(** * Laws of the effect monad *)

Section EffectLaws.
Context {W Ev : Type}.
Implicit Types w : W.

Lemma bind_run {A B} (m : M W Ev A) (f : A → M W Ev B) w :
  bind m f w =
  (value (f (value (m w)) (world (m w))),
   world (f (value (m w)) (world (m w))),
   calls (m w) ++ calls (f (value (m w)) (world (m w)))).
Proof.
  unfold bind, value, world, calls.
  destruct (m w) as [[a w1] t1]; simpl.
  by destruct (f a w1) as [[b w2] t2].
Qed.

Lemma call_run {A} (f : W → A * W) (ev : A → Ev) w :
  call f ev w = ((f w).1, (f w).2, [ev (f w).1]).
Proof. unfold call. by destruct (f w). Qed.

Lemma run_eta {A} (r : A * W * list Ev) : r = (value r, world r, calls r).
Proof. by destruct r as [[??]?]. Qed.

(** A loop over [xs ++ ys] is the loop over [xs] followed by the loop
    over [ys], started in the world the first one leaves. *)
Lemma forRange_app {A} (xs ys : list A) (body : A → M W Ev unit) w :
  forRange (xs ++ ys) body w =
  (tt, world (forRange ys body (world (forRange xs body w))),
   calls (forRange xs body w)
   ++ calls (forRange ys body (world (forRange xs body w)))).
Proof.
  revert w. induction xs as [|x xs IH]; intros w; simpl.
  - rewrite (run_eta (forRange ys body w)) at 1.
    by destruct (value (forRange ys body w)).
  - rewrite !bind_run, IH. simpl. unfold world, calls; simpl.
    by rewrite app_assoc.
Qed.

Lemma forRange_cons {A} (x : A) (xs : list A) (body : A → M W Ev unit) w :
  forRange (x :: xs) body w =
  (tt, world (forRange xs body (world (body x w))),
   calls (body x w) ++ calls (forRange xs body (world (body x w)))).
Proof.
  simpl. rewrite bind_run. f_equal. f_equal.
  by destruct (value (forRange xs body (world (body x w)))).
Qed.

(** A round that does nothing can be left out of the loop. *)
Lemma forRange_skip {A} (xs ys : list A) (x : A) (body : A → M W Ev unit) :
  (∀ w, body x w = (tt, w, [])) →
  ∀ w, forRange (xs ++ x :: ys) body w = forRange (xs ++ ys) body w.
Proof.
  intros Hx w. rewrite !forRange_app, forRange_cons, Hx. simpl.
  unfold world, calls. simpl. reflexivity.
Qed.

(** Every call of a loop is a call of one of its rounds. *)
Lemma forRange_calls {A} (P : Ev → Prop) (xs : list A)
    (body : A → M W Ev unit) :
  (∀ x w, x ∈ xs → Forall P (calls (body x w))) →
  ∀ w, Forall P (calls (forRange xs body w)).
Proof.
  induction xs as [|x xs IH]; intros Hbody w.
  - constructor.
  - rewrite forRange_cons. unfold calls at 1; simpl.
    apply Forall_app; split.
    + apply Hbody. by left.
    + apply IH. intros y w' Hy. apply Hbody. by right.
Qed.

(** The calls of a loop whose rounds each make one fixed call. *)
Lemma forRange_calls_map {A} (xs : list A) (body : A → M W Ev unit)
    (ev : A → Ev) :
  (∀ x w, calls (body x w) = [ev x]) →
  ∀ w, calls (forRange xs body w) = ev <$> xs.
Proof.
  intros Hbody. induction xs as [|x xs IH]; intros w; [done|].
  rewrite forRange_cons. unfold calls at 1; simpl.
  by rewrite Hbody, IH.
Qed.
End EffectLaws.

(** * The orphan reconciler *)

Section Reconciler.
Context {W : Type} `{!MetadataClient W} `{!DockerClient W}.
Implicit Types (w : W) (container : metadata.Container).

#[local] Abbreviation force := {| types.Force := true |}.

(** [removeContainer], path by path. *)
Lemma removeContainer_run container w :
  reaper.removeContainer container w =
  let id := metadata.ExternalId container in
  match ContainerInspect id w with
  | (Err err, w1) =>
    (tt, w1, [reaper.EvContainerInspect id (Err err);
              reaper.EvLog reaper.Error "reaper: Inspect failed: %v" [err]])
  | (Ok c, w1) =>
    if bool_decide (types.Name c = "/rancher-agent")
    then (tt, w1, [reaper.EvContainerInspect id (Ok c)])
    else
      let '(r, w2) := ContainerRemove id force w1 in
      (tt, w2,
       [reaper.EvContainerInspect id (Ok c);
        reaper.EvLog reaper.Info "reaper:  Removing unmanaged container %s %s"
          [metadata.Name container; id];
        reaper.EvContainerRemove id force r]
       ++ match r with
          | Some err =>
            [reaper.EvLog reaper.Error "reaper: Removed failed: %v" [err]]
          | None => []
          end)
  end.
Proof.
  unfold reaper.removeContainer, bind, call, reaper.logf, emit, ret. simpl.
  destruct (ContainerInspect _ w) as [[c|err] w1]; simpl; [|done].
  case_bool_decide; simpl; [done|].
  destruct (ContainerRemove _ _ w1) as [[err|] w2]; done.
Qed.

(** A round of the loop of [onChange] either does nothing or is
    [removeContainer]. *)
Lemma onChange_body_orphan host container uuid w :
  metadata.HostUUID container = metadata.Host_UUID host →
  metadata.Labels container !! reaper.uuidLabel = Some uuid →
  uuid ≠ metadata.UUID container →
  reaper.onChange_body host container w = reaper.removeContainer container w.
Proof.
  intros Hhost Hlabel Hne. unfold reaper.onChange_body.
  rewrite bool_decide_eq_false_2 by (intros Hc; by apply Hc).
  rewrite Hlabel. by rewrite bool_decide_eq_true_2 by congruence.
Qed.

Lemma onChange_body_unlabelled host container w :
  metadata.Labels container !! reaper.uuidLabel = None →
  reaper.onChange_body host container w = (tt, w, []).
Proof.
  intros Hlabel. unfold reaper.onChange_body.
  case_bool_decide; [done|]. by rewrite Hlabel.
Qed.

(** [onChange] once both fetches have answered. *)
Lemma onChange_fetched version w host w1 containers w2 :
  GetSelfHost w = (Ok host, w1) →
  GetContainers w1 = (Ok containers, w2) →
  reaper.onChange version w =
  (None, world (forRange containers (reaper.onChange_body host) w2),
   [reaper.EvGetSelfHost (Ok host); reaper.EvGetContainers (Ok containers)]
   ++ calls (forRange containers (reaper.onChange_body host) w2)).
Proof.
  intros Hhost Hcs. unfold reaper.onChange.
  rewrite bind_run, call_run, Hhost. simpl.
  rewrite bind_run, call_run, Hcs. simpl.
  rewrite bind_run. simpl. unfold world, calls, ret. simpl.
  by rewrite app_nil_r.
Qed.

(** C6. Whenever the inspect call of [removeContainer] answers with the
    reserved name "/rancher-agent", [removeContainer] returns after that
    single call: the list of its calls holds no removal, whatever the
    labels of the container were. *)
Theorem removeContainer_spares_agent container w c w1 :
  ContainerInspect (metadata.ExternalId container) w = (Ok c, w1) →
  types.Name c = "/rancher-agent" →
  reaper.removeContainer container w
  = (tt, w1, [reaper.EvContainerInspect (metadata.ExternalId container) (Ok c)])
  ∧ omap observe.removed (calls (reaper.removeContainer container w)) = [].
Proof.
  intros Hinspect Hname.
  assert (reaper.removeContainer container w
          = (tt, w1, [reaper.EvContainerInspect
                        (metadata.ExternalId container) (Ok c)])) as ->.
  { rewrite removeContainer_run. simpl. rewrite Hinspect.
    by rewrite bool_decide_eq_true_2. }
  done.
Qed.

(** C7. If fetching the self host fails, or fetching the containers
    fails, [onChange] returns that error having made no call but the
    fetches, so no inspect and no removal; [onChangeNoError] then logs
    the error once and returns, without fetching again. *)
Theorem onChange_fetch_failure version w :
  (∀ err w1,
    GetSelfHost w = (Err err, w1) →
    reaper.onChange version w
    = (Some err, w1, [reaper.EvGetSelfHost (Err err)])
    ∧ reaper.onChangeNoError version w
      = (tt, w1,
         [reaper.EvGetSelfHost (Err err);
          reaper.EvLog reaper.Error
            "reaper: Failed to watch for orphan containers: %v" [err]]))
  ∧ (∀ host w1 err w2,
    GetSelfHost w = (Ok host, w1) →
    GetContainers w1 = (Err err, w2) →
    reaper.onChange version w
    = (Some err, w2,
       [reaper.EvGetSelfHost (Ok host); reaper.EvGetContainers (Err err)])
    ∧ reaper.onChangeNoError version w
      = (tt, w2,
         [reaper.EvGetSelfHost (Ok host); reaper.EvGetContainers (Err err);
          reaper.EvLog reaper.Error
            "reaper: Failed to watch for orphan containers: %v" [err]])).
Proof.
  split.
  - intros err w1 Hhost.
    assert (reaper.onChange version w
            = (Some err, w1, [reaper.EvGetSelfHost (Err err)])) as Hrun.
    { unfold reaper.onChange. rewrite bind_run, call_run, Hhost. done. }
    split; [done|].
    unfold reaper.onChangeNoError. rewrite bind_run, Hrun. done.
  - intros host w1 err w2 Hhost Hcs.
    assert (reaper.onChange version w
            = (Some err, w2, [reaper.EvGetSelfHost (Ok host);
                              reaper.EvGetContainers (Err err)])) as Hrun.
    { unfold reaper.onChange. rewrite bind_run, call_run, Hhost. simpl.
      rewrite bind_run, call_run, Hcs. done. }
    split; [done|].
    unfold reaper.onChangeNoError. rewrite bind_run, Hrun. done.
Qed.

(** The pass around one container of the fetched list. *)
Lemma onChange_around version w host w1 pre container post w2 :
  GetSelfHost w = (Ok host, w1) →
  GetContainers w1 = (Ok (pre ++ container :: post), w2) →
  let before := forRange pre (reaper.onChange_body host) w2 in
  let item := reaper.onChange_body host container (world before) in
  let rest := forRange post (reaper.onChange_body host) (world item) in
  reaper.onChange version w =
  (None, world rest,
   [reaper.EvGetSelfHost (Ok host);
    reaper.EvGetContainers (Ok (pre ++ container :: post))]
   ++ calls before ++ calls item ++ calls rest).
Proof.
  intros Hhost Hcs. simpl.
  rewrite (onChange_fetched _ _ _ _ _ _ Hhost Hcs).
  by rewrite forRange_app, forRange_cons.
Qed.

(** C2. In a pass whose fetches succeed, a fetched container without the
    uuid label key is passed over: its round of the loop makes no call
    and leaves the world as it was, whatever its host is, and the pass
    as a whole is the pass over the other containers. *)
Theorem onChange_skips_unlabelled version w host w1 pre container post w2 :
  GetSelfHost w = (Ok host, w1) →
  GetContainers w1 = (Ok (pre ++ container :: post), w2) →
  metadata.Labels container !! reaper.uuidLabel = None →
  (∀ w', reaper.onChange_body host container w' = (tt, w', []))
  ∧ reaper.onChange version w =
    (None, world (forRange (pre ++ post) (reaper.onChange_body host) w2),
     [reaper.EvGetSelfHost (Ok host);
      reaper.EvGetContainers (Ok (pre ++ container :: post))]
     ++ calls (forRange (pre ++ post) (reaper.onChange_body host) w2)).
Proof.
  intros Hhost Hcs Hlabel.
  assert (∀ w', reaper.onChange_body host container w' = (tt, w', [])) as Hskip.
  { intros w'. by apply onChange_body_unlabelled. }
  split; [done|].
  rewrite (onChange_fetched _ _ _ _ _ _ Hhost Hcs).
  by rewrite (forRange_skip _ _ _ _ Hskip).
Qed.

(** C1, amended. In a pass whose fetches succeed, every fetched container
    of the self host whose uuid label is present and differs from its
    UUID is inspected at its ExternalId; when the inspect call answers
    with a name other than "/rancher-agent", the removal of that
    ExternalId with Force set follows, after the log line. *)
Theorem onChange_removes_mismatched version w host w1 containers w2
    container uuid :
  GetSelfHost w = (Ok host, w1) →
  GetContainers w1 = (Ok containers, w2) →
  container ∈ containers →
  metadata.HostUUID container = metadata.Host_UUID host →
  metadata.Labels container !! reaper.uuidLabel = Some uuid →
  uuid ≠ metadata.UUID container →
  ∃ earlier r later,
    calls (reaper.onChange version w)
    = earlier
      ++ reaper.EvContainerInspect (metadata.ExternalId container) r :: later
    ∧ ∀ c, r = Ok c → types.Name c ≠ "/rancher-agent" →
      ∃ r' later',
        later
        = reaper.EvLog reaper.Info
            "reaper:  Removing unmanaged container %s %s"
            [metadata.Name container; metadata.ExternalId container]
          :: reaper.EvContainerRemove (metadata.ExternalId container) force r'
          :: later'.
Proof.
  intros Hhost Hcs Hin Hself Hlabel Hne.
  apply list_elem_of_split in Hin as (pre & post & ->).
  rewrite (onChange_around _ _ _ _ _ _ _ _ Hhost Hcs). simpl.
  rewrite (onChange_body_orphan _ _ _ _ Hself Hlabel Hne).
  rewrite removeContainer_run. simpl.
  set (w3 := world (forRange pre _ w2)).
  exists ([reaper.EvGetSelfHost (Ok host);
           reaper.EvGetContainers (Ok (pre ++ container :: post))]
          ++ calls (forRange pre (reaper.onChange_body host) w2)).
  destruct (ContainerInspect _ w3) as [[c|err] w4] eqn:Hinspect.
  - destruct (decide (types.Name c = "/rancher-agent")) as [Hname|Hname].
    + rewrite bool_decide_eq_true_2 by done.
      exists (Ok c). eexists. split; [simpl; reflexivity|].
      by intros c' [= <-] Hc'.
    + rewrite bool_decide_eq_false_2 by done.
      destruct (ContainerRemove _ _ w4) as [r' w5] eqn:Hremove.
      exists (Ok c). eexists. split.
      * simpl. reflexivity.
      * intros c' [= <-] _. eauto.
  - exists (Err err). eexists. split; [simpl; reflexivity|].
    intros c' [=].
Qed.

(** C8. In a pass whose fetches succeed, take a fetched container that
    the loop hands to [removeContainer].  If its inspect call fails, the
    failure is logged and nothing else is called for it; if its removal
    fails, the failure is logged.  Either way the loop goes on with the
    remaining containers, from the world the failed call left, and the
    pass returns no error. *)
Theorem onChange_item_failure_isolated version w host w1 pre container post
    w2 uuid :
  GetSelfHost w = (Ok host, w1) →
  GetContainers w1 = (Ok (pre ++ container :: post), w2) →
  metadata.HostUUID container = metadata.Host_UUID host →
  metadata.Labels container !! reaper.uuidLabel = Some uuid →
  uuid ≠ metadata.UUID container →
  let id := metadata.ExternalId container in
  let before := forRange pre (reaper.onChange_body host) w2 in
  let item := reaper.removeContainer container (world before) in
  let rest := forRange post (reaper.onChange_body host) (world item) in
  reaper.onChange version w =
    (None, world rest,
     [reaper.EvGetSelfHost (Ok host);
      reaper.EvGetContainers (Ok (pre ++ container :: post))]
     ++ calls before ++ calls item ++ calls rest)
  ∧ (∀ err w3,
      ContainerInspect id (world before) = (Err err, w3) →
      item = (tt, w3,
              [reaper.EvContainerInspect id (Err err);
               reaper.EvLog reaper.Error "reaper: Inspect failed: %v" [err]]))
  ∧ (∀ c w3 err w4,
      ContainerInspect id (world before) = (Ok c, w3) →
      types.Name c ≠ "/rancher-agent" →
      ContainerRemove id force w3 = (Some err, w4) →
      item = (tt, w4,
              [reaper.EvContainerInspect id (Ok c);
               reaper.EvLog reaper.Info
                 "reaper:  Removing unmanaged container %s %s"
                 [metadata.Name container; id];
               reaper.EvContainerRemove id force (Some err);
               reaper.EvLog reaper.Error "reaper: Removed failed: %v" [err]])).
Proof.
  intros Hhost Hcs Hself Hlabel Hne id before item rest.
  split; [|split].
  - rewrite (onChange_around _ _ _ _ _ _ _ _ Hhost Hcs). simpl.
    by rewrite (onChange_body_orphan _ _ _ _ Hself Hlabel Hne).
  - intros err w3 Hinspect. unfold item.
    rewrite removeContainer_run. simpl. fold id. by rewrite Hinspect.
  - intros c w3 err w4 Hinspect Hname Hremove. unfold item.
    rewrite removeContainer_run. simpl. fold id. rewrite Hinspect.
    rewrite bool_decide_eq_false_2 by done. by rewrite Hremove.
Qed.
End Reconciler.

(** * The duplicate-service guard *)

Section Guard.
Context {W : Type} `{!MetadataClient W} `{!DockerClient W}.
Implicit Types (w : W) (containers : list types.Container).

(** The first loop of [CheckMetadata] collects, per service, the ids of
    the running instances in the order of the listing. *)
Lemma CheckMetadata_scan_instances containers metadataIds dnsIds :
  foldl reaper.CheckMetadata_scan (metadataIds, dnsIds) containers =
  (metadataIds
   ++ (types.ID <$> observe.instances reaper.metadataService containers),
   dnsIds ++ (types.ID <$> observe.instances reaper.dnsService containers)).
Proof.
  revert metadataIds dnsIds.
  induction containers as [|c cs IH]; intros ms ds.
  - simpl. by rewrite !app_nil_r.
  - cbn [foldl].
    destruct (reaper.CheckMetadata_scan (ms, ds) c) as [ms' ds'] eqn:Hstep.
    rewrite IH. unfold observe.instances. rewrite !filter_cons.
    unfold reaper.CheckMetadata_scan in Hstep.
    destruct (decide (types.State c = "running")) as [Hrun|Hrun].
    + rewrite (bool_decide_eq_false_2 (types.State c ≠ "running")) in Hstep
        by (intros Hc; by apply Hc).
      repeat case_bool_decide; simplify_eq/=; repeat case_decide;
        try (exfalso; tauto); simpl; by rewrite <-?app_assoc.
    + rewrite (bool_decide_eq_true_2 (types.State c ≠ "running")) in Hstep
        by done.
      simplify_eq/=. repeat case_decide; try (exfalso; tauto); done.
Qed.

(** [appendLast] appends nothing for at most one id and the last id
    otherwise; the slice index is always in range. *)
Lemma appendLast_spec (toStop ids : list string) :
  ((length ids ≤ 1)%nat → reaper.appendLast toStop ids = toStop)
  ∧ ((1 < length ids)%nat →
     ∃ id, last ids = Some id ∧ reaper.appendLast toStop ids = toStop ++ [id]).
Proof.
  unfold reaper.appendLast. split; intros Hlen.
  - rewrite bool_decide_eq_false_2 by lia. done.
  - rewrite bool_decide_eq_true_2 by done.
    rewrite last_lookup.
    replace (pred (length ids)) with (length ids - 1)%nat by lia.
    destruct (ids !! (length ids - 1)%nat) as [id|] eqn:Hid; [eauto|].
    apply lookup_ge_None in Hid. lia.
Qed.

Lemma CheckMetadata_toStop_spec containers :
  ∃ forMetadata forDns,
    reaper.CheckMetadata_toStop containers = forMetadata ++ forDns
    ∧ observe.stops_last_of
        (observe.instances reaper.metadataService containers) forMetadata
    ∧ observe.stops_last_of
        (observe.instances reaper.dnsService containers) forDns.
Proof.
  unfold reaper.CheckMetadata_toStop.
  rewrite CheckMetadata_scan_instances. simpl.
  set (Sm := observe.instances reaper.metadataService containers).
  set (Sd := observe.instances reaper.dnsService containers).
  assert (∀ (S : list types.Container) toStop, ∃ ids,
    reaper.appendLast toStop (types.ID <$> S) = toStop ++ ids
    ∧ observe.stops_last_of S ids) as Hone.
  { intros S toStop.
    destruct (appendLast_spec toStop (types.ID <$> S)) as [Hle Hgt].
    rewrite length_fmap in Hle, Hgt.
    destruct (decide (length S ≤ 1)%nat) as [Hlen|Hlen].
    - exists []. rewrite app_nil_r. split; [by apply Hle|].
      split; [done|lia].
    - destruct Hgt as (id & Hlast & Happ); [lia|].
      rewrite fmap_last in Hlast.
      destruct (last S) as [c|] eqn:Hc; simplify_eq/=.
      exists [types.ID c]. split; [done|]. split; [lia|eauto]. }
  destruct (Hone Sm []) as (forMetadata & -> & Hm). simpl.
  destruct (Hone Sd forMetadata) as (forDns & -> & Hd).
  eauto.
Qed.

(** One round of the last loop of [CheckMetadata]. *)
Lemma CheckMetadata_stop_run (id : string) w :
  reaper.CheckMetadata_stop id w =
  let '(r, w1) := ContainerStop id (Some 0) w in
  (tt, w1,
   [reaper.EvLog reaper.Info
      "reaper:  Stopping duplicate metadata/dns service: %s" [id];
    reaper.EvContainerStop id (Some 0) r]
   ++ match r with
      | Some _ =>
        [reaper.EvLog reaper.Error
           "reaper:  Failed to stop duplicate metadata/dns service: %s" [id]]
      | None => []
      end).
Proof.
  unfold reaper.CheckMetadata_stop, bind, call, reaper.logf, emit, ret.
  cbv zeta.
  by destruct (ContainerStop id _ w) as [[err|] w1].
Qed.

(** The last loop of [CheckMetadata] stops each id once, at once. *)
Lemma CheckMetadata_stop_calls (ids : list string) w :
  observe.stop_calls (calls (forRange ids reaper.CheckMetadata_stop w))
  = (λ id, (id, Some 0)) <$> ids.
Proof.
  revert w. induction ids as [|id ids IH]; intros w; [done|].
  rewrite forRange_cons. simpl. unfold observe.stop_calls in *.
  rewrite omap_app, IH, CheckMetadata_stop_run.
  by destruct (ContainerStop id _ w) as [[err|] w1].
Qed.

Lemma CheckMetadata_listed w containers w1 :
  ContainerList {| types.All := true |} w = (Ok containers, w1) →
  reaper.CheckMetadata w =
  (None,
   world (forRange (reaper.CheckMetadata_toStop containers)
            reaper.CheckMetadata_stop w1),
   reaper.EvContainerList {| types.All := true |} (Ok containers)
   :: calls (forRange (reaper.CheckMetadata_toStop containers)
               reaper.CheckMetadata_stop w1)).
Proof.
  intros Hlist. unfold reaper.CheckMetadata.
  rewrite bind_run, call_run, Hlist. simpl.
  rewrite bind_run. simpl. by rewrite app_nil_r.
Qed.

Lemma CheckMetadata_failed w err w1 :
  ContainerList {| types.All := true |} w = (Err err, w1) →
  reaper.CheckMetadata w =
  (Some err, w1, [reaper.EvContainerList {| types.All := true |} (Err err)]).
Proof.
  intros Hlist. unfold reaper.CheckMetadata.
  by rewrite bind_run, call_run, Hlist.
Qed.

(** C3. In a detection pass whose listing succeeds, the stop calls are
    those made for the metadata service followed by those made for the
    DNS service; for each of the two, with S the running instances of the
    service in listing order: no stop call when S has at most one
    element, and exactly one, aimed at the last element of S, when S has
    more. *)
Theorem CheckMetadata_stops_last_duplicate w containers w1 :
  ContainerList {| types.All := true |} w = (Ok containers, w1) →
  ∃ forMetadata forDns,
    observe.stop_targets (calls (reaper.CheckMetadata w))
    = forMetadata ++ forDns
    ∧ observe.stops_last_of
        (observe.instances reaper.metadataService containers) forMetadata
    ∧ observe.stops_last_of
        (observe.instances reaper.dnsService containers) forDns.
Proof.
  intros Hlist.
  destruct (CheckMetadata_toStop_spec containers)
    as (forMetadata & forDns & HtoStop & Hm & Hd).
  exists forMetadata, forDns. split; [|done].
  rewrite (CheckMetadata_listed _ _ _ Hlist). simpl.
  unfold observe.stop_targets, observe.stop_calls. simpl.
  fold (observe.stop_calls
          (calls (forRange (reaper.CheckMetadata_toStop containers)
                    reaper.CheckMetadata_stop w1))).
  rewrite CheckMetadata_stop_calls, <-list_fmap_compose, <-HtoStop.
  apply list_fmap_id.
Qed.

(** C10. Every stop call of a detection pass carries a timeout, and that
    timeout is zero. *)
Theorem CheckMetadata_stops_at_once w :
  Forall (λ stop, stop.2 = Some 0)
    (observe.stop_calls (calls (reaper.CheckMetadata w))).
Proof.
  destruct (ContainerList {| types.All := true |} w) as [[cs|err] w1]
    eqn:Hlist.
  - rewrite (CheckMetadata_listed _ _ _ Hlist). simpl.
    unfold observe.stop_calls. simpl.
    fold (observe.stop_calls
            (calls (forRange (reaper.CheckMetadata_toStop cs)
                      reaper.CheckMetadata_stop w1))).
    rewrite CheckMetadata_stop_calls. by apply Forall_fmap, Forall_true.
  - rewrite (CheckMetadata_failed _ _ _ Hlist). constructor.
Qed.
End Guard.

(** * The poll schedule of the guard *)

Section Schedule.
Context {W : Type} `{!MetadataClient W} `{!DockerClient W}.
Implicit Types (w : W) (b : backoff.Backoff).

#[local] Abbreviation b0 := reaper.watchMetadata_backoff.

Lemma raw_start : (backoff.raw b0 0 == inject_Z time.Second)%Q.
Proof. reflexivity. Qed.

Lemma raw_step (i : nat) :
  (backoff.raw b0 (S i) == backoff.raw b0 i * 1.5)%Q.
Proof.
  unfold backoff.raw. simpl backoff.Factor. simpl backoff.Min.
  rewrite Nat2Z.inj_succ, <-Z.add_1_r.
  rewrite Qpower_plus by done.
  rewrite Qmult_assoc. reflexivity.
Qed.

Lemma raw_nonneg (i : nat) : (0 <= backoff.raw b0 i)%Q.
Proof.
  unfold backoff.raw. apply Qmult_le_0_compat; [done|].
  by apply Qpower_0_le.
Qed.

Lemma raw_mono (i j : nat) :
  (i ≤ j)%nat → (backoff.raw b0 i <= backoff.raw b0 j)%Q.
Proof.
  induction 1 as [|j _ IH]; [apply Qle_refl|].
  eapply Qle_trans; [exact IH|].
  rewrite raw_step.
  rewrite <-(Qmult_1_r (backoff.raw b0 j)) at 1.
  apply Qmult_le_compat_nonneg; (split; [|try apply Qle_refl]); try done.
  apply raw_nonneg.
Qed.

Lemma ForAttempt_min b (i : nat) :
  backoff.ForAttempt b i
  = Z.min (backoff.Max b) (Qfloor (backoff.raw b i)).
Proof. unfold backoff.ForAttempt. simpl. case_bool_decide; lia. Qed.

Lemma ForAttempt_mono (i j : nat) :
  (i ≤ j)%nat → backoff.ForAttempt b0 i ≤ backoff.ForAttempt b0 j.
Proof.
  intros Hij. rewrite !ForAttempt_min.
  apply Z.min_le_compat_l, Qfloor_resp_le. by apply raw_mono.
Qed.

Lemma ForAttempt_ceiling (i : nat) :
  (15 ≤ i)%nat → backoff.ForAttempt b0 i = 5 * time.Minute.
Proof.
  intros Hi. apply Z.le_antisymm.
  - rewrite ForAttempt_min. apply Z.le_min_l.
  - transitivity (backoff.ForAttempt b0 15); [|by apply ForAttempt_mono].
    by vm_compute.
Qed.

(** A detection pass does not sleep. *)
Lemma CheckMetadata_no_sleep w :
  observe.sleeps (calls (reaper.CheckMetadata w)) = [].
Proof.
  destruct (ContainerList {| types.All := true |} w) as [[cs|err] w1]
    eqn:Hlist.
  - rewrite (CheckMetadata_listed _ _ _ Hlist). simpl.
    generalize (reaper.CheckMetadata_toStop cs) w1. clear.
    intros ids. induction ids as [|id ids IH]; intros w; [done|].
    rewrite forRange_cons. simpl. unfold observe.sleeps in *.
    rewrite omap_app, IH, CheckMetadata_stop_run.
    by destruct (ContainerStop id _ w) as [[err|] w1].
  - by rewrite (CheckMetadata_failed _ _ _ Hlist).
Qed.

(** One round of the loop of [watchMetadata]. *)
Lemma watchMetadata_loop_round (n : nat) b w :
  reaper.watchMetadata_loop (S n) b w =
  let pass := reaper.CheckMetadata w in
  let rest := reaper.watchMetadata_loop n (backoff.Duration b).2 (world pass) in
  (tt, world rest,
   calls pass
   ++ match value pass with
      | Some err =>
        [reaper.EvLog reaper.Error
           "reaper: Failed to check for bad metadata: %v" [err]]
      | None => []
      end
   ++ reaper.EvSleep (backoff.ForAttempt b (backoff.attempt b)) :: calls rest).
Proof.
  simpl. rewrite !bind_run. simpl.
  destruct (value (reaper.CheckMetadata w)) as [err|]; simpl;
    by destruct (value (reaper.watchMetadata_loop _ _ _)).
Qed.

(** The intervals slept in the first [n] rounds are the intervals of the
    generator, one per round, whatever the detection passes answer. *)
Lemma watchMetadata_loop_sleeps (n : nat) b w :
  observe.sleeps (calls (reaper.watchMetadata_loop n b w))
  = backoff.ForAttempt b <$> seq (backoff.attempt b) n.
Proof.
  revert b w. induction n as [|n IH]; intros b w; [done|].
  rewrite watchMetadata_loop_round. simpl.
  unfold observe.sleeps in *. rewrite !omap_app.
  fold (observe.sleeps (calls (reaper.CheckMetadata w))).
  rewrite CheckMetadata_no_sleep. simpl.
  rewrite IH. simpl.
  by destruct (value (reaper.CheckMetadata w)).
Qed.

(** C4. The intervals slept by the first rounds of [watchMetadata], one
    per round and whatever the detection passes answered: the interval
    before truncation starts at one second and is multiplied by 1.5 from
    one round to the next; the interval slept is its whole number of
    nanoseconds, clamped at five minutes.  The sequence starts at one
    second, never decreases, and from the round that reaches five
    minutes on (the sixteenth at the latest) every interval is five
    minutes. *)
Theorem watchMetadata_intervals (rounds : nat) w :
  let intervals := observe.sleeps (calls (reaper.watchMetadata rounds w)) in
  let raw := backoff.raw reaper.watchMetadata_backoff in
  length intervals = rounds
  ∧ (raw 0%nat == inject_Z (1 * time.Second))%Q
  ∧ (∀ i : nat, raw (S i) == raw i * 1.5)%Q
  ∧ (∀ (i : nat) d, intervals !! i = Some d →
       d = Z.min (5 * time.Minute) (Qfloor (raw i)))
  ∧ (∀ d, intervals !! 0%nat = Some d → d = 1 * time.Second)
  ∧ (∀ (i : nat) d d', intervals !! i = Some d → intervals !! S i = Some d' →
       d ≤ d')
  ∧ (∀ (i j : nat) d, (i ≤ j)%nat →
       intervals !! i = Some (5 * time.Minute) → intervals !! j = Some d →
       d = 5 * time.Minute)
  ∧ (∀ (i : nat) d, (15 ≤ i)%nat → intervals !! i = Some d →
       d = 5 * time.Minute).
Proof.
  intros intervals raw.
  assert (intervals = backoff.ForAttempt b0 <$> seq 0 rounds) as Hseq.
  { unfold intervals, reaper.watchMetadata.
    by rewrite watchMetadata_loop_sleeps. }
  assert (∀ (i : nat) d, intervals !! i = Some d →
            d = backoff.ForAttempt b0 i) as Hnth.
  { intros i d. rewrite Hseq, list_lookup_fmap.
    destruct (seq 0 rounds !! i) as [k|] eqn:Hk; [|done].
    apply lookup_seq in Hk as [-> _]. by intros [= <-]. }
  split; [by rewrite Hseq, length_fmap, length_seq|].
  split; [apply raw_start|].
  split; [apply raw_step|].
  split; [intros i d ->%Hnth; apply ForAttempt_min|].
  split; [by intros d ->%Hnth|].
  split.
  { intros i d d' ->%Hnth ->%Hnth. apply ForAttempt_mono. lia. }
  split.
  - intros i j d Hij Hi%Hnth ->%Hnth. apply Z.le_antisymm.
    + rewrite ForAttempt_min. apply Z.le_min_l.
    + rewrite Hi. by apply ForAttempt_mono.
  - intros i d Hi ->%Hnth. by apply ForAttempt_ceiling.
Qed.
End Schedule.

(** * The event bootstrap *)

Section Bootstrap.
Context {Manager Watcher Client EventRouter W : Type}.
Context `{!@events.Runtime Manager Watcher Client EventRouter W}.
Implicit Types (w : W) (de : @events.DockerEventsProcessor Manager Watcher).

#[local] Abbreviation all := {| docker.All := true |}.

#[local] Abbreviation synthetic := observe.synthetic.

(** The replay loop feeds one event per listed container, in order. *)
Lemma Process_replay_calls (router : EventRouter)
    (containers : list docker.APIContainers) w :
  calls (forRange containers (events.Process_replay router) w)
  = (λ c, events.EvListen router (synthetic c)) <$> containers.
Proof.
  apply forRange_calls_map. intros c w'.
  unfold events.Process_replay. by rewrite call_run.
Qed.

Lemma listened_replay (router : EventRouter)
    (containers : list docker.APIContainers) :
  observe.listened
    ((λ c, @events.EvListen Manager Watcher Client EventRouter router
             (synthetic c)) <$> containers)
  = synthetic <$> containers.
Proof.
  induction containers as [|c cs IH]; [done|].
  unfold observe.listened in *. simpl in *. f_equal. exact IH.
Qed.

(** [Process], path by path. *)
Lemma Process_run de w :
  calls (events.Process de w) =
  match events.NewDockerClient w with
  | (Err err, _) => [events.EvNewDockerClient (Err err)]
  | (Ok dockerClient, w1) =>
    let handlers := events.Process_handlers de dockerClient in
    let size := events.poolSize de in
    match events.NewEventRouter size size dockerClient handlers w1 with
    | (Err err, _) =>
      [events.EvNewDockerClient (Ok dockerClient);
       events.EvNewEventRouter size size dockerClient handlers (Err err)]
    | (Ok router, w2) =>
      let w3 := (events.Start router w2).2 in
      [events.EvNewDockerClient (Ok dockerClient);
       events.EvNewEventRouter size size dockerClient handlers (Ok router);
       events.EvStart router]
      ++ match events.ListContainers dockerClient all w3 with
         | (Err err, _) => [events.EvListContainers dockerClient all (Err err)]
         | (Ok containers, _) =>
           events.EvListContainers dockerClient all (Ok containers)
           :: ((λ c, events.EvListen router (synthetic c)) <$> containers)
         end
    end
  end
  ∧ (value (events.Process de w) = None ↔
     ∃ dockerClient w1 router w2 containers w4,
       events.NewDockerClient w = (Ok dockerClient, w1)
       ∧ events.NewEventRouter (events.poolSize de) (events.poolSize de)
           dockerClient (events.Process_handlers de dockerClient) w1
         = (Ok router, w2)
       ∧ events.ListContainers dockerClient all (events.Start router w2).2
         = (Ok containers, w4)).
Proof.
  unfold events.Process.
  rewrite bind_run, call_run.
  destruct (events.NewDockerClient w) as [[dockerClient|err] w1] eqn:Hdc;
    simpl.
  2: { split; [done|]. split; [done|].
       intros (?&?&?&?&?&?&?&?&?). congruence. }
  rewrite bind_run, call_run.
  destruct (events.NewEventRouter _ _ _ _ w1) as [[router|err] w2] eqn:Hr;
    simpl.
  2: { split; [done|]. split; [done|].
       intros (?&?&?&?&?&?&?&?&?). congruence. }
  rewrite bind_run, call_run. simpl.
  rewrite bind_run, call_run.
  destruct (events.ListContainers _ _ _) as [[containers|err] w4] eqn:Hlist;
    simpl.
  - rewrite bind_run. simpl.
    rewrite Process_replay_calls, app_nil_r.
    split; [done|]. split; [|done]. intros _.
    by exists dockerClient, w1, router, w2, containers, w4.
  - split; [done|]. split; [done|].
    intros (?&?&?&?&?&?&?&?&?). congruence.
Qed.

(** C5. When [Process] returns without error, the router was started,
    all containers were listed afterwards (with All set), and what was
    fed to the listener of the router is exactly one event per listed
    container, in listing order, with Status "start" and the marker
    "-simulated-" as origin, and nothing else. *)
Theorem Process_replays_each_container_once de w :
  value (events.Process de w) = None →
  ∃ dockerClient router containers setup,
    calls (events.Process de w)
    = setup
      ++ [events.EvStart router;
          events.EvListContainers dockerClient all (Ok containers)]
      ++ ((λ c, events.EvListen router (synthetic c)) <$> containers)
    ∧ observe.listened setup = []
    ∧ observe.listened (calls (events.Process de w))
      = (λ c, {| docker.Event_ID := docker.ID c;
                 docker.Status := "start";
                 docker.From := "-simulated-" |}) <$> containers.
Proof.
  intros Hnil. destruct (Process_run de w) as [Hcalls Hvalue].
  apply Hvalue in Hnil
    as (dockerClient & w1 & router & w2 & containers & w4 & Hdc & Hr & Hl).
  rewrite Hdc in Hcalls. simpl in Hcalls. rewrite Hr, Hl in Hcalls.
  exists dockerClient, router, containers.
  eexists [_; _]. rewrite Hcalls. split; [reflexivity|]. split; [done|].
  simpl. apply listened_replay.
Qed.

(** C9. Once the runtime client exists, [Process] calls [NewEventRouter]
    exactly once, with the pool size twice, the client, and a table that
    maps "start" to the binary-exec watcher, the start handler and the
    network-manager handler, in this order, "die" to the network-manager
    handler alone, and no other status; the router that call returns is
    the one started, directly afterwards. *)
Theorem Process_routing_table de w dockerClient w1 :
  events.NewDockerClient w = (Ok dockerClient, w1) →
  ∃ handlers r later,
    calls (events.Process de w)
    = events.EvNewDockerClient (Ok dockerClient)
      :: events.EvNewEventRouter (events.poolSize de) (events.poolSize de)
           dockerClient handlers r
      :: later
    ∧ handlers !! "start"
      = Some [events.BinexecWatcher (events.bw de);
              events.StartHandler dockerClient;
              events.NetworkManagerHandler (events.nm de)]
    ∧ handlers !! "die" = Some [events.NetworkManagerHandler (events.nm de)]
    ∧ dom handlers = ({[ "start"; "die" ]} : gset string)
    ∧ (∀ router, r = Ok router → ∃ later', later = events.EvStart router :: later')
    ∧ (∀ err, r = Err err → later = [])
    ∧ Forall (λ ev, match ev with
                    | events.EvNewEventRouter _ _ _ _ _ => False
                    | _ => True
                    end) later.
Proof.
  intros Hdc. destruct (Process_run de w) as [Hcalls _].
  rewrite Hdc in Hcalls. simpl in Hcalls.
  exists (events.Process_handlers de dockerClient).
  destruct (events.NewEventRouter _ _ _ _ w1) as [[router|err] w2].
  - exists (Ok router). eexists. split; [rewrite Hcalls; reflexivity|].
    split; [done|]. split; [done|].
    split; [unfold events.Process_handlers; set_solver|].
    split; [intros ? [= <-]; eauto|]. split; [done|].
    constructor; [done|].
    destruct (events.ListContainers _ _ _) as [[cs|err] w4].
    + constructor; [done|]. apply Forall_fmap, Forall_true. done.
    + by repeat constructor.
  - exists (Err err), []. split; [by rewrite Hcalls|].
    split; [done|]. split; [done|].
    split; [unfold events.Process_handlers; set_solver|].
    split; [done|]. split; [done|]. constructor.
Qed.
End Bootstrap.

(** * The theorems on the simulated host *)

Section Scenarios.

(** C1 as stated fails: the pass over a host whose only record has no
    uuid label makes the two fetches and nothing else, although the
    record belongs to the self host and the runtime container "d1" is
    there to be inspected. *)
Lemma onChange_unlabelled_counterexample :
  let w := sim.hostA [sim.bare] in
  GetSelfHost w = (Ok sim.H, w)
  ∧ GetContainers w = (Ok [sim.bare], w)
  ∧ metadata.HostUUID sim.bare = metadata.Host_UUID sim.H
  ∧ metadata.Labels sim.bare !! reaper.uuidLabel = None
  ∧ sim.names w !! metadata.ExternalId sim.bare = Some "/web-1"
  ∧ calls (reaper.onChange "1" w)
    = [reaper.EvGetSelfHost (Ok sim.H);
       reaper.EvGetContainers (Ok [sim.bare])]
  ∧ ¬ ∃ r, reaper.EvContainerInspect (metadata.ExternalId sim.bare) r
           ∈ calls (reaper.onChange "1" w).
Proof.
  assert (calls (reaper.onChange "1" (sim.hostA [sim.bare]))
          = [reaper.EvGetSelfHost (Ok sim.H);
             reaper.EvGetContainers (Ok [sim.bare])]) as Hcalls
    by (vm_compute; reflexivity).
  repeat split; try (vm_compute; reflexivity).
  intros [r Hr]. rewrite Hcalls in Hr.
  apply elem_of_cons in Hr as [[=]|Hr].
  apply elem_of_cons in Hr as [[=]|Hr].
  by apply not_elem_of_nil in Hr.
Qed.


(** Scenario A of the spec: the record "a1" points at "d1", labelled
    "a2" and named "/web-1": "d1" is inspected, then removed. *)
Lemma onChange_removes_mismatched_witness :
  let w := sim.hostA [sim.web1] in
  sim.web1 ∈ [sim.web1]
  ∧ metadata.Labels sim.web1 !! reaper.uuidLabel = Some "a2"
  ∧ ∃ earlier r later,
      calls (reaper.onChange "1" w)
      = earlier ++ reaper.EvContainerInspect "d1" r :: later
      ∧ ∀ c, r = Ok c → types.Name c ≠ "/rancher-agent" →
        ∃ r' later',
          later
          = reaper.EvLog reaper.Info
              "reaper:  Removing unmanaged container %s %s" ["web-1"; "d1"]
            :: reaper.EvContainerRemove "d1" {| types.Force := true |} r'
            :: later'.
Proof.
  split; [by left|]. split; [reflexivity|].
  apply (onChange_removes_mismatched "1" (sim.hostA [sim.web1]) sim.H
           (sim.hostA [sim.web1]) [sim.web1] (sim.hostA [sim.web1])
           sim.web1 "a2").
  - reflexivity.
  - reflexivity.
  - by left.
  - reflexivity.
  - reflexivity.
  - discriminate.
Defined.

Lemma onChange_skips_unlabelled_witness :
  let w := sim.hostA [sim.web1; sim.bare; sim.db1] in
  metadata.Labels sim.bare !! reaper.uuidLabel = None
  ∧ (∀ w', reaper.onChange_body sim.H sim.bare w' = (tt, w', []))
  ∧ reaper.onChange "1" w =
    (None,
     world (forRange ([sim.web1] ++ [sim.db1])
              (reaper.onChange_body sim.H) w),
     [reaper.EvGetSelfHost (Ok sim.H);
      reaper.EvGetContainers (Ok ([sim.web1] ++ sim.bare :: [sim.db1]))]
     ++ calls (forRange ([sim.web1] ++ [sim.db1])
                 (reaper.onChange_body sim.H) w)).
Proof.
  split; [reflexivity|].
  apply (onChange_skips_unlabelled "1"
           (sim.hostA [sim.web1; sim.bare; sim.db1]) sim.H
           (sim.hostA [sim.web1; sim.bare; sim.db1])
           [sim.web1] sim.bare [sim.db1]
           (sim.hostA [sim.web1; sim.bare; sim.db1])).
  - reflexivity.
  - reflexivity.
  - reflexivity.
Defined.

(** Scenario B of the spec: the inspected container is the agent. *)
Lemma removeContainer_spares_agent_witness :
  let w := sim.hostA [sim.agent] in
  ContainerInspect "d0" w = (Ok {| types.Name := "/rancher-agent" |}, w)
  ∧ reaper.removeContainer sim.agent w
    = (tt, w, [reaper.EvContainerInspect "d0"
                 (Ok {| types.Name := "/rancher-agent" |})])
  ∧ omap observe.removed (calls (reaper.removeContainer sim.agent w)) = [].
Proof.
  split; [reflexivity|].
  apply (removeContainer_spares_agent sim.agent (sim.hostA [sim.agent])
           {| types.Name := "/rancher-agent" |} (sim.hostA [sim.agent])).
  - reflexivity.
  - reflexivity.
Defined.

Lemma onChange_fetch_failure_witness :
  GetSelfHost sim.unreachable = (Err "connection refused", sim.unreachable)
  ∧ reaper.onChangeNoError "1" sim.unreachable
    = (tt, sim.unreachable,
       [reaper.EvGetSelfHost (Err "connection refused");
        reaper.EvLog reaper.Error
          "reaper: Failed to watch for orphan containers: %v"
          ["connection refused"]])
  ∧ GetContainers sim.no_containers = (Err "timeout", sim.no_containers)
  ∧ reaper.onChangeNoError "1" sim.no_containers
    = (tt, sim.no_containers,
       [reaper.EvGetSelfHost (Ok sim.H); reaper.EvGetContainers (Err "timeout");
        reaper.EvLog reaper.Error
          "reaper: Failed to watch for orphan containers: %v" ["timeout"]]).
Proof.
  split; [reflexivity|]. split.
  - apply (proj1 (onChange_fetch_failure "1" sim.unreachable)
             "connection refused" sim.unreachable).
    reflexivity.
  - split; [reflexivity|].
    apply (proj2 (onChange_fetch_failure "1" sim.no_containers)
             sim.H sim.no_containers "timeout" sim.no_containers).
    + reflexivity.
    + reflexivity.
Defined.

(** The removal of "d1" fails and "d2" cannot be inspected: each failure
    is logged and the pass goes on. *)
Lemma onChange_item_failure_isolated_witness :
  let w := sim.hostA [sim.web1; sim.db1] in
  reaper.removeContainer sim.web1 w
  = (tt, w,
     [reaper.EvContainerInspect "d1" (Ok {| types.Name := "/web-1" |});
      reaper.EvLog reaper.Info
        "reaper:  Removing unmanaged container %s %s" ["web-1"; "d1"];
      reaper.EvContainerRemove "d1" {| types.Force := true |}
        (Some "device or resource busy");
      reaper.EvLog reaper.Error "reaper: Removed failed: %v"
        ["device or resource busy"]])
  ∧ reaper.removeContainer sim.db1 w
    = (tt, w,
       [reaper.EvContainerInspect "d2" (Err "No such container");
        reaper.EvLog reaper.Error "reaper: Inspect failed: %v"
          ["No such container"]])
  ∧ value (reaper.onChange "1" w) = None.
Proof.
  pose (w := sim.hostA [sim.web1; sim.db1]).
  destruct (onChange_item_failure_isolated "1" w sim.H w
              [] sim.web1 [sim.db1] w "a2")
    as (Hpass & _ & Hremove);
    [reflexivity|reflexivity|reflexivity|reflexivity|discriminate|].
  destruct (onChange_item_failure_isolated "1" w sim.H w
              [sim.web1] sim.db1 [] w "b0")
    as (_ & Hinspect & _);
    [reflexivity|reflexivity|reflexivity|reflexivity|discriminate|].
  split; [|split].
  - apply (Hremove {| types.Name := "/web-1" |} w
             "device or resource busy" w).
    + reflexivity.
    + discriminate.
    + reflexivity.
  - apply (Hinspect "No such container" w). reflexivity.
  - exact (f_equal value Hpass).
Defined.

(** Scenario C of the spec: of [m3; m2; m1], only m1 is stopped. *)
Lemma CheckMetadata_stops_last_duplicate_witness :
  let w := sim.hostA [] in
  ContainerList {| types.All := true |} w
  = (Ok [sim.m "m3"; sim.m "m2"; sim.m "m1"], w)
  ∧ observe.stop_targets (calls (reaper.CheckMetadata w)) = ["m1"]
  ∧ ∃ forMetadata forDns,
      observe.stop_targets (calls (reaper.CheckMetadata w))
      = forMetadata ++ forDns
      ∧ observe.stops_last_of
          (observe.instances reaper.metadataService
             [sim.m "m3"; sim.m "m2"; sim.m "m1"]) forMetadata
      ∧ observe.stops_last_of
          (observe.instances reaper.dnsService
             [sim.m "m3"; sim.m "m2"; sim.m "m1"]) forDns.
Proof.
  split; [reflexivity|]. split; [vm_compute; reflexivity|].
  apply (CheckMetadata_stops_last_duplicate (sim.hostA [])
           [sim.m "m3"; sim.m "m2"; sim.m "m1"] (sim.hostA [])).
  reflexivity.
Defined.

(** Seventeen rounds on the simulated host: the eleventh interval is
    1s x 1.5^10 cut to whole nanoseconds, the sixteenth and the
    seventeenth are the ceiling. *)
Lemma watchMetadata_intervals_witness :
  let intervals :=
    observe.sleeps (calls (reaper.watchMetadata 17 (sim.hostA []))) in
  let raw := backoff.raw reaper.watchMetadata_backoff in
  length intervals = 17%nat
  ∧ intervals !! 0%nat = Some 1000000000
  ∧ intervals !! 1%nat = Some 1500000000
  ∧ intervals !! 10%nat = Some 57665039062
  ∧ intervals !! 15%nat = Some 300000000000
  ∧ intervals !! 16%nat = Some 300000000000
  ∧ 1000000000 = 1 * time.Second
  ∧ 57665039062 = Z.min (5 * time.Minute) (Qfloor (raw 10%nat))
  ∧ 1000000000 ≤ 1500000000
  ∧ 300000000000 = 5 * time.Minute.
Proof.
  intros intervals raw.
  destruct (watchMetadata_intervals 17 (sim.hostA []))
    as (Hlen & _ & _ & Hclamp & Hfirst & Hmono & Hstay & Hceil).
  fold intervals in Hlen, Hclamp, Hfirst, Hmono, Hstay, Hceil.
  assert (intervals !! 0%nat = Some 1000000000) as H0
    by (vm_compute; reflexivity).
  assert (intervals !! 1%nat = Some 1500000000) as H1
    by (vm_compute; reflexivity).
  assert (intervals !! 10%nat = Some 57665039062) as H10
    by (vm_compute; reflexivity).
  assert (intervals !! 15%nat = Some 300000000000) as H15
    by (vm_compute; reflexivity).
  assert (intervals !! 16%nat = Some 300000000000) as H16
    by (vm_compute; reflexivity).
  split; [exact Hlen|].
  split; [exact H0|]. split; [exact H1|]. split; [exact H10|].
  split; [exact H15|]. split; [exact H16|].
  split; [exact (Hfirst _ H0)|].
  split; [exact (Hclamp _ _ H10)|].
  split; [exact (Hmono _ _ _ H0 H1)|].
  apply (Hstay 15%nat 16%nat); [lia|exact H15|exact H16].
Defined.

(** Scenario D of the spec: two containers at startup, two replayed
    events. *)
Lemma Process_replays_each_container_once_witness :
  value (events.Process sim.processor sim.startup) = None
  ∧ observe.listened (calls (events.Process sim.processor sim.startup))
    = [ {| docker.Event_ID := "c1"; docker.Status := "start";
           docker.From := "-simulated-" |};
        {| docker.Event_ID := "c2"; docker.Status := "start";
           docker.From := "-simulated-" |} ]
  ∧ ∃ dockerClient router containers setup,
      calls (events.Process sim.processor sim.startup)
      = setup
        ++ [events.EvStart router;
            events.EvListContainers dockerClient {| docker.All := true |}
              (Ok containers)]
        ++ ((λ c, events.EvListen router (observe.synthetic c)) <$> containers)
      ∧ observe.listened setup = []
      ∧ observe.listened (calls (events.Process sim.processor sim.startup))
        = (λ c, {| docker.Event_ID := docker.ID c;
                   docker.Status := "start";
                   docker.From := "-simulated-" |}) <$> containers.
Proof.
  split; [reflexivity|]. split; [vm_compute; reflexivity|].
  apply (Process_replays_each_container_once sim.processor sim.startup).
  reflexivity.
Defined.

Lemma Process_routing_table_witness :
  events.NewDockerClient sim.startup = (Ok 7%nat, sim.startup)
  ∧ ∃ handlers r later,
      calls (events.Process sim.processor sim.startup)
      = events.EvNewDockerClient (Ok 7%nat)
        :: events.EvNewEventRouter 10 10 7%nat handlers r
        :: later
      ∧ handlers !! "start"
        = Some [events.BinexecWatcher 2%nat; events.StartHandler 7%nat;
                events.NetworkManagerHandler 1%nat]
      ∧ handlers !! "die" = Some [events.NetworkManagerHandler 1%nat]
      ∧ dom handlers = ({[ "start"; "die" ]} : gset string)
      ∧ (∀ router, r = Ok router →
           ∃ later', later = events.EvStart router :: later')
      ∧ (∀ err, r = Err err → later = [])
      ∧ Forall (λ ev, match ev with
                      | events.EvNewEventRouter _ _ _ _ _ => False
                      | _ => True
                      end) later.
Proof.
  split; [reflexivity|].
  apply (Process_routing_table sim.processor sim.startup 7%nat sim.startup).
  reflexivity.
Defined.

(** Scenario C again: the one stop call of the pass has no grace
    period. *)
Example stop_calls_scenario_C :
  observe.stop_calls (calls (reaper.CheckMetadata (sim.hostA [])))
  = [("m1", Some 0)].
Proof. vm_compute. reflexivity. Qed.
End Scenarios.

(** * Beyond the claims: the reconciler *)

Section ReconcilerPass.
Context {W : Type} `{!MetadataClient W} `{!DockerClient W}.
Implicit Types (w : W) (container : metadata.Container).

(** A round of the loop of [onChange] is [removeContainer] for an orphan
    and nothing otherwise. *)
Lemma onChange_body_cases host container w :
  reaper.onChange_body host container w
  = if pass.orphan host container
    then reaper.removeContainer container w
    else (tt, w, []).
Proof.
  unfold reaper.onChange_body, pass.orphan.
  destruct (decide (metadata.HostUUID container = metadata.Host_UUID host))
    as [Hhost|Hhost].
  - rewrite bool_decide_eq_false_2 by (intros Hc; by apply Hc).
    rewrite (bool_decide_eq_true_2 _ Hhost). simpl.
    destruct (metadata.Labels container !! reaper.uuidLabel); [|done].
    by case_bool_decide.
  - rewrite bool_decide_eq_true_2 by done.
    by rewrite (bool_decide_eq_false_2 _ Hhost).
Qed.

Lemma removeContainer_inspected container w :
  omap pass.inspected (calls (reaper.removeContainer container w))
  = [metadata.ExternalId container].
Proof.
  rewrite removeContainer_run. simpl.
  destruct (ContainerInspect _ w) as [[c|err] w1]; [|done].
  case_bool_decide; [done|].
  by destruct (ContainerRemove _ _ w1) as [[err|] w2].
Qed.

Lemma onChange_loop_inspected host (containers : list metadata.Container) w :
  omap pass.inspected
    (calls (forRange containers (reaper.onChange_body host) w))
  = metadata.ExternalId <$> filter (λ c, pass.orphan host c) containers.
Proof.
  revert w. induction containers as [|c cs IH]; intros w; [done|].
  rewrite forRange_cons. simpl. rewrite omap_app, IH, filter_cons.
  rewrite onChange_body_cases.
  destruct (pass.orphan host c); simpl.
  - by rewrite removeContainer_inspected.
  - done.
Qed.

(** X1. In a pass whose fetches succeed, the containers inspected are, in
    order and with repetitions, exactly the ExternalIds of the fetched
    containers that are of the self host and carry a uuid label other
    than their UUID: one inspect call for each, none for any other id. *)
Theorem onChange_inspects_exactly_orphans version w host w1 containers w2 :
  GetSelfHost w = (Ok host, w1) →
  GetContainers w1 = (Ok containers, w2) →
  omap pass.inspected (calls (reaper.onChange version w))
  = metadata.ExternalId <$> filter (λ c, pass.orphan host c) containers.
Proof.
  intros Hhost Hcs. rewrite (onChange_fetched _ _ _ _ _ _ Hhost Hcs).
  simpl. apply onChange_loop_inspected.
Qed.

(** [onChange] when a fetch fails. *)
Lemma onChange_no_host version w err w1 :
  GetSelfHost w = (Err err, w1) →
  reaper.onChange version w = (Some err, w1, [reaper.EvGetSelfHost (Err err)]).
Proof.
  intros Hhost. unfold reaper.onChange. by rewrite bind_run, call_run, Hhost.
Qed.

Lemma onChange_no_containers version w host w1 err w2 :
  GetSelfHost w = (Ok host, w1) →
  GetContainers w1 = (Err err, w2) →
  reaper.onChange version w
  = (Some err, w2,
     [reaper.EvGetSelfHost (Ok host); reaper.EvGetContainers (Err err)]).
Proof.
  intros Hhost Hcs. unfold reaper.onChange.
  rewrite bind_run, call_run, Hhost. simpl.
  by rewrite bind_run, call_run, Hcs.
Qed.

Lemma guarded_nil : pass.guarded [].
Proof. intros k id opts r Hk. by rewrite lookup_nil in Hk. Qed.

Lemma guarded_app (t1 t2 : list reaper.event) :
  pass.guarded t1 → pass.guarded t2 → pass.guarded (t1 ++ t2).
Proof.
  intros H1 H2 k id opts r Hk.
  apply lookup_app_Some in Hk as [Hk|[Hlen Hk]].
  - destruct (H1 _ _ _ _ Hk) as (Hopts & Hk2 & c & Hc & Hname).
    split; [done|]. split; [done|]. exists c. split; [|done].
    by apply lookup_app_l_Some.
  - destruct (H2 _ _ _ _ Hk) as (Hopts & Hk2 & c & Hc & Hname).
    split; [done|]. split; [lia|]. exists c. split; [|done].
    rewrite lookup_app_r by lia.
    by replace (k - 2 - length t1)%nat with (k - length t1 - 2)%nat by lia.
Qed.

Lemma removeContainer_guarded container w :
  pass.guarded (calls (reaper.removeContainer container w)).
Proof.
  rewrite removeContainer_run. simpl.
  destruct (ContainerInspect _ w) as [[c|err] w1] eqn:Hinspect.
  - case_bool_decide as Hname.
    + intros [|[|k]] id opts r Hk; simplify_eq/=.
    + destruct (ContainerRemove _ _ w1) as [r' w2].
      intros [|[|[|k]]] id opts r Hk; simplify_eq/=.
      * split; [done|]. split; [lia|]. by exists c.
      * destruct r'; destruct k; simplify_eq/=.
  - intros [|[|k]] id opts r Hk; simplify_eq/=.
Qed.

(** What holds of the empty list and is kept by concatenation holds of
    the calls of a loop as soon as it holds of the calls of each round. *)
Lemma forRange_calls_closed {Ev A} (P : list Ev → Prop) (xs : list A)
    (body : A → M W Ev unit) :
  P [] → (∀ t1 t2, P t1 → P t2 → P (t1 ++ t2)) →
  (∀ x w, P (calls (body x w))) →
  ∀ w, P (calls (forRange xs body w)).
Proof.
  intros Hnil Happ Hbody. induction xs as [|x xs IH]; intros w; [done|].
  rewrite forRange_cons. simpl. by apply Happ.
Qed.

(** X2. In every pass, each removal call has Force set and comes directly
    after the log line that follows a successful inspect of the same id,
    whose answer is not named "/rancher-agent": nothing is removed
    uninspected, and nothing the runtime just called the agent. *)
Theorem onChange_removals_guarded version w :
  ∀ (k : nat) id opts r,
    calls (reaper.onChange version w) !! k
    = Some (reaper.EvContainerRemove id opts r) →
    opts = {| types.Force := true |}
    ∧ (2 ≤ k)%nat
    ∧ ∃ c, calls (reaper.onChange version w) !! (k - 2)%nat
           = Some (reaper.EvContainerInspect id (Ok c))
           ∧ types.Name c ≠ "/rancher-agent".
Proof.
  change (pass.guarded (calls (reaper.onChange version w))).
  destruct (GetSelfHost w) as [[host|err] w1] eqn:Hhost.
  - destruct (GetContainers w1) as [[cs|err] w2] eqn:Hcs.
    + rewrite (onChange_fetched _ _ _ _ _ _ Hhost Hcs). simpl.
      apply (guarded_app [_; _]).
      * intros [|[|k]] id opts r Hk; simplify_eq/=.
      * apply forRange_calls_closed;
          [apply guarded_nil | apply guarded_app |].
        intros c w'. rewrite onChange_body_cases.
        destruct (pass.orphan host c);
          [apply removeContainer_guarded | apply guarded_nil].
    + rewrite (onChange_no_containers _ _ _ _ _ _ Hhost Hcs).
      intros [|[|k]] id opts r Hk; simplify_eq/=.
  - rewrite (onChange_no_host _ _ _ _ Hhost).
    intros [|k] id opts r Hk; simplify_eq/=.
Qed.
(** X4. A pass over a consistent host changes nothing: when the fetches
    succeed and every fetched container of the self host that carries a
    uuid label carries its own UUID, the pass makes the two fetches, no
    runtime call at all, and leaves the world as the fetches left it. *)
Theorem onChange_consistent_host_untouched version w host w1 containers w2 :
  GetSelfHost w = (Ok host, w1) →
  GetContainers w1 = (Ok containers, w2) →
  (∀ c uuid, c ∈ containers →
     metadata.HostUUID c = metadata.Host_UUID host →
     metadata.Labels c !! reaper.uuidLabel = Some uuid →
     uuid = metadata.UUID c) →
  reaper.onChange version w
  = (None, w2,
     [reaper.EvGetSelfHost (Ok host); reaper.EvGetContainers (Ok containers)]).
Proof.
  intros Hhost Hcs Hok. rewrite (onChange_fetched _ _ _ _ _ _ Hhost Hcs).
  assert (∀ w', forRange containers (reaper.onChange_body host) w'
                = (tt, w', [])) as ->; [|done].
  clear Hcs. induction containers as [|c cs IH]; intros w'; [done|].
  rewrite forRange_cons, onChange_body_cases.
  assert (pass.orphan host c = false) as ->.
  { unfold pass.orphan.
    destruct (decide (metadata.HostUUID c = metadata.Host_UUID host))
      as [Hself|Hself]; [|by rewrite (bool_decide_eq_false_2 _ Hself)].
    rewrite (bool_decide_eq_true_2 _ Hself). simpl.
    destruct (metadata.Labels c !! reaper.uuidLabel) as [uuid|] eqn:Hlabel;
      [|done].
    apply bool_decide_eq_false_2. intros Hne. apply Hne. symmetry.
    apply (Hok c uuid); [by left|done..]. }
  simpl. rewrite IH; [done|].
  intros c' uuid Hc'. apply Hok. by right.
Qed.
Lemma removeContainer_removed container w :
  omap observe.removed (calls (reaper.removeContainer container w))
  `sublist_of` [metadata.ExternalId container].
Proof.
  rewrite removeContainer_run. simpl.
  destruct (ContainerInspect _ w) as [[c|err] w1]; [|apply sublist_nil_l].
  case_bool_decide; [apply sublist_nil_l|].
  by destruct (ContainerRemove _ _ w1) as [[err|] w2].
Qed.

(** X3. In a pass whose fetches succeed, the ids of the removal calls
    form a sublist of the ExternalIds of the fetched containers that are of
    the self host and carry a uuid label other than their UUID: at most
    one removal for each of them, in list order, and none for a container
    of another host, without the label, or with its own UUID as label. *)
Theorem onChange_removes_only_orphans version w host w1 containers w2 :
  GetSelfHost w = (Ok host, w1) →
  GetContainers w1 = (Ok containers, w2) →
  omap observe.removed (calls (reaper.onChange version w))
  `sublist_of`
  (metadata.ExternalId <$> filter (λ c, pass.orphan host c) containers).
Proof.
  intros Hhost Hcs. rewrite (onChange_fetched _ _ _ _ _ _ Hhost Hcs). simpl.
  generalize w2. clear. induction containers as [|c cs IH]; intros w; [done|].
  rewrite forRange_cons. simpl. rewrite omap_app, filter_cons.
  rewrite onChange_body_cases.
  destruct (pass.orphan host c); simpl.
  - apply (sublist_app _ [_]); [apply removeContainer_removed | apply IH].
  - apply IH.
Qed.
End ReconcilerPass.

(** * Beyond the claims: the guard *)

Section GuardPass.
Context {W : Type} `{!MetadataClient W} `{!DockerClient W}.
Implicit Types (w : W) (containers : list types.Container).

#[local] Abbreviation listAll := {| types.All := true |}.

(** The stop targets of a pass are the list built by its first half. *)
Lemma CheckMetadata_stop_targets w containers w1 :
  ContainerList listAll w = (Ok containers, w1) →
  observe.stop_targets (calls (reaper.CheckMetadata w))
  = reaper.CheckMetadata_toStop containers.
Proof.
  intros Hlist. rewrite (CheckMetadata_listed _ _ _ Hlist). simpl.
  unfold observe.stop_targets, observe.stop_calls. simpl.
  fold (observe.stop_calls
          (calls (forRange (reaper.CheckMetadata_toStop containers)
                    reaper.CheckMetadata_stop w1))).
  rewrite CheckMetadata_stop_calls, <-list_fmap_compose.
  apply list_fmap_id.
Qed.

Lemma stops_last_of_elem (S : list types.Container) ids id :
  observe.stops_last_of S ids → id ∈ ids →
  (1 < length S)%nat ∧ ∃ c, last S = Some c ∧ id = types.ID c ∧ ids = [id].
Proof.
  intros [Hle Hgt] Hid.
  destruct (decide (length S ≤ 1)%nat) as [Hlen|Hlen].
  - rewrite (Hle Hlen) in Hid. by apply not_elem_of_nil in Hid.
  - destruct Hgt as (c & Hlast & ->); [lia|].
    apply list_elem_of_singleton in Hid as ->. split; [lia|]. eauto.
Qed.

Lemma instances_elem svc containers c :
  c ∈ observe.instances svc containers ↔
  (types.State c = "running"
   ∧ index (types.Labels c) reaper.uuidLabel ≠ ""
   ∧ index (types.Labels c) reaper.serviceNameLabel = svc)
  ∧ c ∈ containers.
Proof. unfold observe.instances. by rewrite list_elem_of_filter. Qed.

(** X5. In a detection pass whose listing succeeds there are at most two
    stop calls, and each is aimed at the ID of a listed container that is
    running, carries a non-empty uuid label and is labelled as the
    metadata or the DNS service: no other container is ever stopped. *)
Theorem CheckMetadata_stops_only_instances w containers w1 :
  ContainerList listAll w = (Ok containers, w1) →
  (length (observe.stop_targets (calls (reaper.CheckMetadata w))) ≤ 2)%nat
  ∧ ∀ id, id ∈ observe.stop_targets (calls (reaper.CheckMetadata w)) →
      ∃ c, c ∈ containers ∧ types.ID c = id ∧ pass.instance c.
Proof.
  intros Hlist. rewrite (CheckMetadata_stop_targets _ _ _ Hlist).
  destruct (CheckMetadata_toStop_spec containers)
    as (forMetadata & forDns & -> & Hm & Hd).
  assert (∀ svc ids,
    observe.stops_last_of (observe.instances svc containers) ids →
    (length ids ≤ 1)%nat
    ∧ ∀ id, id ∈ ids →
        ∃ c, c ∈ observe.instances svc containers ∧ types.ID c = id) as Hone.
  { intros svc ids Hrule. split.
    - destruct Hrule as [Hle Hgt].
      destruct (decide (length (observe.instances svc containers) ≤ 1)%nat).
      + rewrite Hle by done. simpl. lia.
      + destruct Hgt as (c & _ & ->); [lia|]. done.
    - intros id Hid.
      destruct (stops_last_of_elem _ _ _ Hrule Hid) as (_ & c & Hc & -> & _).
      exists c. split; [|done]. by eapply last_Some_elem_of. }
  destruct (Hone _ _ Hm) as [Hlm Him]. destruct (Hone _ _ Hd) as [Hld Hid].
  split; [rewrite length_app; lia|].
  intros id [Hin|Hin]%elem_of_app.
  - destruct (Him _ Hin) as (c & ((Hrun & Huuid & Hsvc) & Hc)%instances_elem
                               & <-).
    exists c. unfold pass.instance. eauto 10.
  - destruct (Hid _ Hin) as (c & ((Hrun & Huuid & Hsvc) & Hc)%instances_elem
                               & <-).
    exists c. unfold pass.instance. eauto 10.
Qed.

Lemma NoDup_fmap_eq {A B} (f : A → B) (l : list A) x y :
  NoDup (f <$> l) → x ∈ l → y ∈ l → f x = f y → x = y.
Proof.
  induction l as [|a l IH]; simpl; intros Hnd Hx Hy Hxy.
  - by apply not_elem_of_nil in Hx.
  - apply NoDup_cons in Hnd as [Ha Hnd].
    apply elem_of_cons in Hx as [->|Hx]; apply elem_of_cons in Hy as [->|Hy].
    + done.
    + destruct Ha. rewrite Hxy. by apply list_elem_of_fmap_2.
    + destruct Ha. rewrite <-Hxy. by apply list_elem_of_fmap_2.
    + by apply IH.
Qed.

(** X6. When the listed containers have distinct IDs, the first listed
    running instance of either service (the newest, in the order the
    code assumes) is never a stop target of the pass. *)
Theorem CheckMetadata_spares_newest w containers w1 svc newest others :
  ContainerList listAll w = (Ok containers, w1) →
  NoDup (types.ID <$> containers) →
  svc = reaper.metadataService ∨ svc = reaper.dnsService →
  observe.instances svc containers = newest :: others →
  types.ID newest ∉ observe.stop_targets (calls (reaper.CheckMetadata w)).
Proof.
  intros Hlist Hnd Hsvc HS Hin.
  assert (newest ∈ observe.instances svc containers) as Hnewest
    by (rewrite HS; by left).
  assert (NoDup (observe.instances svc containers)) as HndS
    by (apply NoDup_filter; by eapply NoDup_fmap_1).
  rewrite (CheckMetadata_stop_targets _ _ _ Hlist) in Hin.
  destruct (CheckMetadata_toStop_spec containers)
    as (forMetadata & forDns & HtoStop & Hm & Hd).
  rewrite HtoStop in Hin.
  assert (∀ svc' ids,
    observe.stops_last_of (observe.instances svc' containers) ids →
    types.ID newest ∈ ids → svc' = svc ∧ last others = Some newest) as Hone.
  { intros svc' ids Hrule Hid.
    destruct (stops_last_of_elem _ _ _ Hrule Hid) as (Hlen & c & Hc & Hidc & _).
    assert (c ∈ observe.instances svc' containers) as Hc'
      by (by eapply last_Some_elem_of).
    assert (newest = c) as <-.
    { apply (NoDup_fmap_eq types.ID containers); [done|..|done].
      - by apply instances_elem in Hnewest as [_ ?].
      - by apply instances_elem in Hc' as [_ ?]. }
    assert (svc' = svc) as ->.
    { apply instances_elem in Hnewest as [(_ & _ & <-) _].
      by apply instances_elem in Hc' as [(_ & _ & <-) _]. }
    split; [done|]. rewrite HS in Hc, Hlen.
    destruct others as [|c' others']; [simpl in Hlen; lia|].
    by rewrite last_cons_cons in Hc. }
  assert (last others = Some newest) as Hlast.
  { apply elem_of_app in Hin as [Hin|Hin].
    - by destruct (Hone _ _ Hm Hin).
    - by destruct (Hone _ _ Hd Hin). }
  rewrite HS in HndS. apply NoDup_cons in HndS as [Hnotin _].
  apply Hnotin. by eapply last_Some_elem_of.
Qed.
End GuardPass.

Section GuardFailures.
Context {W : Type} `{!MetadataClient W} `{!DockerClient W}.
Implicit Types (w : W).

(** X7. A detection pass returns an error exactly when its listing fails,
    and then it is the error of the listing and no stop call was made: a
    stop call that fails is never returned. *)
Theorem CheckMetadata_error_is_listing_error w err :
  (value (reaper.CheckMetadata w) = Some err
   ↔ (ContainerList {| types.All := true |} w).1 = Err err)
  ∧ (value (reaper.CheckMetadata w) = Some err →
     observe.stop_calls (calls (reaper.CheckMetadata w)) = []).
Proof.
  destruct (ContainerList {| types.All := true |} w) as [[cs|err'] w1]
    eqn:Hlist.
  - rewrite (CheckMetadata_listed _ _ _ Hlist). simpl. by split; [split|].
  - rewrite (CheckMetadata_failed _ _ _ Hlist). simpl.
    split; [|done]. split; congruence.
Qed.

Lemma CheckMetadata_stop_loop_logged (ids : list string) w :
  omap pass.stop_failure_logged
    (calls (forRange ids reaper.CheckMetadata_stop w))
  = (λ id, [id]) <$> omap pass.stop_failed
      (calls (forRange ids reaper.CheckMetadata_stop w)).
Proof.
  revert w. induction ids as [|id ids IH]; intros w; [done|].
  rewrite forRange_cons. simpl. rewrite !omap_app, fmap_app, IH.
  f_equal. rewrite CheckMetadata_stop_run.
  by destruct (ContainerStop id _ w) as [[err|] w1].
Qed.

(** X8. In a detection pass every failed stop call is logged, with the id
    of the container, and nothing else is logged as a failed stop: the
    logged ids are the ids of the failed stop calls, in order. *)
Theorem CheckMetadata_logs_failed_stops w :
  omap pass.stop_failure_logged (calls (reaper.CheckMetadata w))
  = (λ id, [id]) <$> omap pass.stop_failed (calls (reaper.CheckMetadata w)).
Proof.
  destruct (ContainerList {| types.All := true |} w) as [[cs|err'] w1]
    eqn:Hlist.
  - rewrite (CheckMetadata_listed _ _ _ Hlist). simpl.
    apply CheckMetadata_stop_loop_logged.
  - by rewrite (CheckMetadata_failed _ _ _ Hlist).
Qed.
(** X9. A detection pass over a healthy host changes nothing: when the
    listing succeeds and shows at most one running instance of the
    metadata service and at most one of the DNS service, the pass makes
    the listing call and no other, and returns nil. *)
Theorem CheckMetadata_healthy_host_untouched w containers w1 :
  ContainerList {| types.All := true |} w = (Ok containers, w1) →
  (length (observe.instances reaper.metadataService containers) ≤ 1)%nat →
  (length (observe.instances reaper.dnsService containers) ≤ 1)%nat →
  reaper.CheckMetadata w
  = (None, w1,
     [reaper.EvContainerList {| types.All := true |} (Ok containers)]).
Proof.
  intros Hlist Hm Hd. rewrite (CheckMetadata_listed _ _ _ Hlist).
  destruct (CheckMetadata_toStop_spec containers)
    as (forMetadata & forDns & -> & [Hm0 _] & [Hd0 _]).
  by rewrite (Hm0 Hm), (Hd0 Hd).
Qed.
End GuardFailures.

(** * Beyond the claims: the polling loop *)

Section Rhythm.
Context {W : Type} `{!MetadataClient W} `{!DockerClient W}.
Implicit Types (w : W) (b : backoff.Backoff).

(** The stop loop of a detection pass has no listing, no sleep and no
    line of the log of [watchMetadata]. *)
Lemma CheckMetadata_stop_loop_silent (ids : list string) w :
  omap pass.beat_of (calls (forRange ids reaper.CheckMetadata_stop w)) = []
  ∧ omap pass.check_failure_logged
      (calls (forRange ids reaper.CheckMetadata_stop w)) = []
  ∧ omap pass.list_failed
      (calls (forRange ids reaper.CheckMetadata_stop w)) = [].
Proof.
  revert w. induction ids as [|id ids IH]; intros w; [done|].
  rewrite forRange_cons. simpl. rewrite !omap_app.
  destruct (IH (world (reaper.CheckMetadata_stop id w))) as (-> & -> & ->).
  rewrite CheckMetadata_stop_run.
  by destruct (ContainerStop id _ w) as [[err|] w1].
Qed.

(** What a detection pass contributes to the observations of the loop:
    one listing, no sleep, no line of the loop's own log, and the error
    of the listing if it failed. *)
Lemma CheckMetadata_observed w :
  omap pass.beat_of (calls (reaper.CheckMetadata w)) = [pass.Poll]
  ∧ omap pass.check_failure_logged (calls (reaper.CheckMetadata w)) = []
  ∧ omap pass.list_failed (calls (reaper.CheckMetadata w))
    = match value (reaper.CheckMetadata w) with
      | Some err => [err]
      | None => []
      end.
Proof.
  destruct (ContainerList {| types.All := true |} w) as [[cs|err'] w1]
    eqn:Hlist.
  - rewrite (CheckMetadata_listed _ _ _ Hlist). simpl.
    destruct (CheckMetadata_stop_loop_silent
                (reaper.CheckMetadata_toStop cs) w1) as (H1 & H2 & H3).
    split; [|split]; [f_equal; exact H1 | exact H2 | exact H3].
  - by rewrite (CheckMetadata_failed _ _ _ Hlist).
Qed.

(** X10. The first rounds of [watchMetadata] alternate strictly: one
    listing, one sleep, one listing, one sleep, whatever the listings and
    the stop calls answer.  No round is skipped after a failure and no
    two listings follow each other without a sleep in between. *)
Theorem watchMetadata_polls_then_sleeps (rounds : nat) w :
  omap pass.beat_of (calls (reaper.watchMetadata rounds w))
  = mjoin (replicate rounds [pass.Poll; pass.Nap]).
Proof.
  unfold reaper.watchMetadata. generalize reaper.watchMetadata_backoff.
  revert w. induction rounds as [|n IH]; intros w b; [done|].
  rewrite watchMetadata_loop_round. simpl. rewrite !omap_app.
  destruct (CheckMetadata_observed w) as (-> & _ & _).
  simpl. rewrite IH.
  by destruct (value (reaper.CheckMetadata w)).
Qed.

(** X11. Every failed listing of the first rounds of [watchMetadata] is
    logged with its error, and the loop logs a failed check for nothing
    else: the errors logged are the errors of the failed listings, in
    order. *)
Theorem watchMetadata_logs_failed_checks (rounds : nat) w :
  omap pass.check_failure_logged (calls (reaper.watchMetadata rounds w))
  = (λ err, [err]) <$> omap pass.list_failed
      (calls (reaper.watchMetadata rounds w)).
Proof.
  unfold reaper.watchMetadata. generalize reaper.watchMetadata_backoff.
  revert w. induction rounds as [|n IH]; intros w b; [done|].
  rewrite watchMetadata_loop_round. simpl. rewrite !omap_app, !fmap_app.
  destruct (CheckMetadata_observed w) as (_ & -> & ->).
  simpl. rewrite IH.
  by destruct (value (reaper.CheckMetadata w)).
Qed.

(** X12. Every interval slept by [watchMetadata] lies between one second
    and five minutes. *)
Theorem watchMetadata_interval_bounds (rounds : nat) w :
  Forall (λ d, 1 * time.Second ≤ d ≤ 5 * time.Minute)
    (observe.sleeps (calls (reaper.watchMetadata rounds w))).
Proof.
  unfold reaper.watchMetadata. rewrite watchMetadata_loop_sleeps.
  apply Forall_fmap, Forall_forall. intros i _. simpl. split.
  - change (1 * time.Second)
      with (backoff.ForAttempt reaper.watchMetadata_backoff 0).
    apply ForAttempt_mono. lia.
  - rewrite ForAttempt_min. apply Z.le_min_l.
Qed.
End Rhythm.

(** * Beyond the claims: the bootstrap *)

Section BootstrapFailures.
Context {Manager Watcher Client EventRouter W : Type}.
Context `{!@events.Runtime Manager Watcher Client EventRouter W}.
Implicit Types (w : W) (de : @events.DockerEventsProcessor Manager Watcher).

#[local] Abbreviation listAll := {| docker.All := true |}.
#[local] Abbreviation event := (@events.event Manager Watcher Client EventRouter).

(** What [Process] returns, path by path. *)
Lemma Process_value de w :
  value (events.Process de w) =
  match events.NewDockerClient w with
  | (Err err, _) => Some err
  | (Ok dockerClient, w1) =>
    match events.NewEventRouter (events.poolSize de) (events.poolSize de)
            dockerClient (events.Process_handlers de dockerClient) w1 with
    | (Err err, _) => Some err
    | (Ok router, w2) =>
      match events.ListContainers dockerClient listAll
              (events.Start router w2).2 with
      | (Err err, _) => Some err
      | (Ok _, _) => None
      end
    end
  end.
Proof.
  unfold events.Process. rewrite bind_run, call_run.
  destruct (events.NewDockerClient w) as [[dockerClient|err] w1]; [|done].
  simpl. rewrite bind_run, call_run.
  destruct (events.NewEventRouter _ _ _ _ w1) as [[router|err] w2]; [|done].
  simpl. rewrite bind_run, call_run. simpl. rewrite bind_run, call_run.
  destruct (events.ListContainers _ _ _) as [[containers|err] w4]; [|done].
  simpl. by rewrite bind_run.
Qed.

(** X13. When [Watch] returns an error, the last call it made is the
    construction of the client, the construction of the router or the
    listing, that call failed with the error returned, and no event was
    fed to the listener of the router. *)
Theorem Watch_stops_at_first_failure (poolSize : Z) (nm : Manager)
    (bw : Watcher) w err :
  value (events.Watch poolSize nm bw w) = Some err →
  (∃ ev : event,
     last (calls (events.Watch poolSize nm bw w)) = Some ev
     ∧ match ev with
       | events.EvNewDockerClient (Err e)
       | events.EvNewEventRouter _ _ _ _ (Err e)
       | events.EvListContainers _ _ (Err e) => e = err
       | _ => False
       end)
  ∧ observe.listened (calls (events.Watch poolSize nm bw w)) = [].
Proof.
  unfold events.Watch.
  set (de := {| events.poolSize := poolSize; events.nm := nm;
                events.bw := bw |}).
  intros Herr. rewrite Process_value in Herr.
  destruct (Process_run de w) as [-> _].
  destruct (events.NewDockerClient w) as [[dockerClient|e] w1].
  - simpl in *.
    destruct (events.NewEventRouter _ _ _ _ w1) as [[router|e] w2].
    + destruct (events.ListContainers _ _ _) as [[containers|e] w4];
        [done|].
      simplify_eq. split; [|done]. eexists. by split.
    + simplify_eq. split; [|done]. eexists. by split.
  - simplify_eq. split; [|done]. eexists. by split.
Qed.

(** X14. If the client and the router are constructed and the listing then
    fails, [Process] returns the error of the listing with the router
    already started, and started once; nothing is replayed and the router
    is not stopped again. *)
Theorem Process_listing_failure_after_start de w dockerClient w1 router w2
    err w4 :
  events.NewDockerClient w = (Ok dockerClient, w1) →
  events.NewEventRouter (events.poolSize de) (events.poolSize de) dockerClient
    (events.Process_handlers de dockerClient) w1 = (Ok router, w2) →
  events.ListContainers dockerClient listAll (events.Start router w2).2
  = (Err err, w4) →
  value (events.Process de w) = Some err
  ∧ pass.started (calls (events.Process de w)) = [router]
  ∧ observe.listened (calls (events.Process de w)) = []
  ∧ last (calls (events.Process de w))
    = Some (events.EvListContainers dockerClient listAll (Err err)).
Proof.
  intros Hdc Hr Hl. rewrite Process_value.
  destruct (Process_run de w) as [-> _].
  rewrite Hdc. simpl. by rewrite Hr, Hl.
Qed.

Lemma started_replay (router : EventRouter)
    (containers : list docker.APIContainers) :
  pass.started
    ((λ c, @events.EvListen Manager Watcher Client EventRouter router
             (observe.synthetic c)) <$> containers) = [].
Proof.
  induction containers as [|c cs IH]; [done|].
  unfold pass.started in *. simpl in *. exact IH.
Qed.

(** X15. [Process] starts at most one router, and only the one that
    [NewEventRouter] has just returned, directly after that call: if
    either constructor fails, no router is started. *)
Theorem Process_starts_only_constructed_router de w :
  (length (pass.started (calls (events.Process de w))) ≤ 1)%nat
  ∧ ∀ router, router ∈ pass.started (calls (events.Process de w)) →
      ∃ dockerClient handlers,
        calls (events.Process de w) !! 1%nat
        = Some (events.EvNewEventRouter (events.poolSize de)
                  (events.poolSize de) dockerClient handlers (Ok router))
        ∧ calls (events.Process de w) !! 2%nat = Some (events.EvStart router).
Proof.
  destruct (Process_run de w) as [-> _].
  destruct (events.NewDockerClient w) as [[dockerClient|e] w1]; simpl.
  - destruct (events.NewEventRouter _ _ _ _ w1) as [[router|e] w2].
    + match goal with
      | |- context [pass.started ?t] =>
        assert (pass.started t = [router]) as ->
      end.
      { destruct (events.ListContainers _ _ _) as [[containers|e] w4];
          [|done].
        unfold pass.started. simpl. f_equal.
        exact (started_replay router containers). }
      split; [simpl; lia|].
      intros router' ->%list_elem_of_singleton. eauto.
    + split; [simpl; lia|]. intros router' Hin.
      by apply not_elem_of_nil in Hin.
  - split; [simpl; lia|]. intros router' Hin.
    by apply not_elem_of_nil in Hin.
Qed.
End BootstrapFailures.

(** * The further properties on the simulated host *)

Section MoreScenarios.

Lemma onChange_inspects_exactly_orphans_witness :
  let cs := [sim.web1; sim.bare; pass.settled; pass.elsewhere; sim.db1;
             sim.agent] in
  filter (λ c, pass.orphan sim.H c) cs = [sim.web1; sim.db1; sim.agent]
  ∧ omap pass.inspected (calls (reaper.onChange "1" (sim.hostA cs)))
    = ["d1"; "d2"; "d0"].
Proof.
  intros cs. split; [vm_compute; reflexivity|].
  rewrite (onChange_inspects_exactly_orphans "1" (sim.hostA cs) sim.H
             (sim.hostA cs) cs (sim.hostA cs)).
  - vm_compute. reflexivity.
  - reflexivity.
  - reflexivity.
Defined.

Lemma onChange_removals_guarded_witness :
  let t := calls (reaper.onChange "1" (sim.hostA [sim.web1])) in
  t !! 4%nat
  = Some (reaper.EvContainerRemove "d1" {| types.Force := true |}
            (Some "device or resource busy"))
  ∧ ∃ c, t !! (4 - 2)%nat = Some (reaper.EvContainerInspect "d1" (Ok c))
         ∧ types.Name c ≠ "/rancher-agent".
Proof.
  intros t. split; [vm_compute; reflexivity|].
  destruct (onChange_removals_guarded "1" (sim.hostA [sim.web1]) 4%nat "d1"
              {| types.Force := true |} (Some "device or resource busy"))
    as (_ & _ & Hc).
  - vm_compute. reflexivity.
  - exact Hc.
Defined.

Lemma onChange_consistent_host_untouched_witness :
  let cs := [pass.settled; sim.bare; pass.elsewhere] in
  reaper.onChange "1" (sim.hostA cs)
  = (None, sim.hostA cs,
     [reaper.EvGetSelfHost (Ok sim.H); reaper.EvGetContainers (Ok cs)]).
Proof.
  intros cs.
  apply (onChange_consistent_host_untouched "1" (sim.hostA cs) sim.H
           (sim.hostA cs) cs (sim.hostA cs)).
  - reflexivity.
  - reflexivity.
  - intros c uuid Hc Hhost Hlabel.
    apply elem_of_cons in Hc as [->|Hc].
    { vm_compute in Hlabel. by injection Hlabel as <-. }
    apply elem_of_cons in Hc as [->|Hc].
    { vm_compute in Hlabel. discriminate. }
    apply elem_of_cons in Hc as [->|Hc].
    { vm_compute in Hhost. discriminate. }
    by apply not_elem_of_nil in Hc.
Defined.

Lemma CheckMetadata_stops_only_instances_witness :
  let w := sim.hostA [] in
  "m1" ∈ observe.stop_targets (calls (reaper.CheckMetadata w))
  ∧ (length (observe.stop_targets (calls (reaper.CheckMetadata w))) ≤ 2)%nat
  ∧ ∃ c, c ∈ [sim.m "m3"; sim.m "m2"; sim.m "m1"]
         ∧ types.ID c = "m1" ∧ pass.instance c.
Proof.
  intros w.
  assert ("m1" ∈ observe.stop_targets (calls (reaper.CheckMetadata w))) as Hin.
  { vm_compute. by left. }
  destruct (CheckMetadata_stops_only_instances w
              [sim.m "m3"; sim.m "m2"; sim.m "m1"] w) as [Hlen Hall].
  - reflexivity.
  - split; [exact Hin|]. split; [exact Hlen|]. exact (Hall "m1" Hin).
Defined.

Lemma CheckMetadata_spares_newest_witness :
  let w := sim.hostA [] in
  observe.instances reaper.metadataService [sim.m "m3"; sim.m "m2"; sim.m "m1"]
  = [sim.m "m3"; sim.m "m2"; sim.m "m1"]
  ∧ "m3" ∉ observe.stop_targets (calls (reaper.CheckMetadata w)).
Proof.
  intros w. split; [vm_compute; reflexivity|].
  apply (CheckMetadata_spares_newest w [sim.m "m3"; sim.m "m2"; sim.m "m1"] w
           reaper.metadataService (sim.m "m3") [sim.m "m2"; sim.m "m1"]).
  - reflexivity.
  - apply (bool_decide_unpack _). vm_compute. reflexivity.
  - by left.
  - vm_compute. reflexivity.
Defined.

Lemma CheckMetadata_error_is_listing_error_witness :
  value (reaper.CheckMetadata sim.unreachable) = Some "connection refused"
  ∧ observe.stop_calls (calls (reaper.CheckMetadata sim.unreachable)) = [].
Proof.
  destruct (CheckMetadata_error_is_listing_error sim.unreachable
              "connection refused") as [[_ Hvalue] Hstops].
  assert (value (reaper.CheckMetadata sim.unreachable)
          = Some "connection refused") as Herr.
  { apply Hvalue. reflexivity. }
  split; [exact Herr|exact (Hstops Herr)].
Defined.

(** A stop call that fails: the pass logs it and still returns nil. *)
Example CheckMetadata_jammed :
  omap pass.stop_failed (calls (reaper.CheckMetadata pass.jammed)) = ["m1"]
  ∧ omap pass.stop_failure_logged (calls (reaper.CheckMetadata pass.jammed))
    = [["m1"]]
  ∧ value (reaper.CheckMetadata pass.jammed) = None.
Proof. vm_compute. done. Qed.

(** Three rounds against a runtime that does not answer: three logged
    failures, three sleeps of growing length. *)
Example watchMetadata_unreachable :
  omap pass.check_failure_logged
    (calls (reaper.watchMetadata 3 sim.unreachable))
  = [["connection refused"]; ["connection refused"]; ["connection refused"]]
  ∧ observe.sleeps (calls (reaper.watchMetadata 3 sim.unreachable))
    = [1000000000; 1500000000; 2250000000].
Proof. vm_compute. done. Qed.

Lemma Watch_stops_at_first_failure_witness :
  value (events.Watch 10 1%nat 2%nat pass.no_listing) = Some "daemon down"
  ∧ last (calls (events.Watch 10 1%nat 2%nat pass.no_listing))
    = Some (events.EvListContainers 7%nat {| docker.All := true |}
              (Err "daemon down"))
  ∧ observe.listened (calls (events.Watch 10 1%nat 2%nat pass.no_listing)) = [].
Proof.
  split; [reflexivity|]. split; [vm_compute; reflexivity|].
  apply (Watch_stops_at_first_failure 10 1%nat 2%nat pass.no_listing
           "daemon down").
  reflexivity.
Defined.

Lemma Process_listing_failure_after_start_witness :
  value (events.Process sim.processor pass.no_listing) = Some "daemon down"
  ∧ pass.started (calls (events.Process sim.processor pass.no_listing))
    = [9%nat]
  ∧ observe.listened (calls (events.Process sim.processor pass.no_listing))
    = []
  ∧ last (calls (events.Process sim.processor pass.no_listing))
    = Some (events.EvListContainers 7%nat {| docker.All := true |}
              (Err "daemon down")).
Proof.
  apply (Process_listing_failure_after_start sim.processor pass.no_listing
           7%nat pass.no_listing 9%nat pass.no_listing "daemon down"
           pass.no_listing).
  - reflexivity.
  - reflexivity.
  - reflexivity.
Defined.

Lemma Process_starts_only_constructed_router_witness :
  9%nat ∈ pass.started (calls (events.Process sim.processor sim.startup))
  ∧ ∃ dockerClient handlers,
      calls (events.Process sim.processor sim.startup) !! 1%nat
      = Some (events.EvNewEventRouter 10 10 dockerClient handlers (Ok 9%nat))
      ∧ calls (events.Process sim.processor sim.startup) !! 2%nat
        = Some (events.EvStart 9%nat).
Proof.
  assert (9%nat ∈ pass.started
                    (calls (events.Process sim.processor sim.startup))) as Hin.
  { vm_compute. by left. }
  split; [exact Hin|].
  exact (proj2 (Process_starts_only_constructed_router sim.processor
                  sim.startup) 9%nat Hin).
Defined.
Lemma onChange_removes_only_orphans_witness :
  let cs := [sim.agent; pass.settled; sim.web1; sim.db1] in
  omap observe.removed (calls (reaper.onChange "1" (sim.hostA cs))) = ["d1"]
  ∧ omap observe.removed (calls (reaper.onChange "1" (sim.hostA cs)))
    `sublist_of`
    (metadata.ExternalId <$> filter (λ c, pass.orphan sim.H c) cs).
Proof.
  intros cs. split; [vm_compute; reflexivity|].
  apply (onChange_removes_only_orphans "1" (sim.hostA cs) sim.H
           (sim.hostA cs) cs (sim.hostA cs)).
  - reflexivity.
  - reflexivity.
Defined.

Lemma CheckMetadata_healthy_host_untouched_witness :
  let w := pass.healthy in
  ∃ cs, sim.listing w = Ok cs ∧ length cs = 2%nat
        ∧ length (observe.instances reaper.metadataService cs) = 1%nat
        ∧ reaper.CheckMetadata w
          = (None, w, [reaper.EvContainerList {| types.All := true |} (Ok cs)]).
Proof.
  intros w. eexists. split; [reflexivity|]. split; [reflexivity|].
  split; [vm_compute; reflexivity|].
  apply (CheckMetadata_healthy_host_untouched w _ w).
  - reflexivity.
  - vm_compute. lia.
  - vm_compute. lia.
Defined.
End MoreScenarios.
